(** * Booking store and booking API: a shallow embedding

    The development follows the server of the booking application:
    - [shared/schema.ts]: the table definitions, the record types inferred
      from them and the insert schema used to validate request bodies;
    - [storage.ts]: the in-memory store [MemStorage];
    - the routes module: the six HTTP handlers of [registerRoutes].

    Conventions.  A JavaScript [Map] is an insertion-ordered association list
    with unique keys.  Readings of the outside world ([randomUUID],
    [new Date()], [Math.random()], [Date.now()]) are passed to each operation
    as explicit arguments.  Integer-valued numbers are in [Z], the numbers
    of request bodies in [Q]; [Math.random()] is a binary64 number and its
    product with 999999 is rounded as binary64 multiplication rounds. *)

From Stdlib Require Import ZArith QArith Qround String Ascii List Lia.
From stdpp Require Import base strings gmap.
Import ListNotations.

Local Open Scope string_scope.
Local Open Scope Z_scope.

(** ** JavaScript runtime helpers *)

Module Js.

(** [T | null | undefined], the type of an optional nullable property. *)
Inductive Optional (T : Type) : Type :=
| Undefined : Optional T
| Null : Optional T
| Defined : T -> Optional T.
Arguments Undefined {T}.
Arguments Null {T}.
Arguments Defined {T} _.

(** Truthiness of a string: every string but the empty one. *)
Definition truthyString (s : string) : bool := negb (String.eqb s "").

(** Truthiness of [x : number | undefined]: every number but zero. *)
Definition truthyNumber (x : option Q) : bool :=
  match x with
  | Some q => negb (Qeq_bool q 0)
  | None => false
  end.

(** [x <= y] for [x : number | undefined]; [undefined] converts to NaN,
    which compares false. *)
Definition leNumber (x : option Q) (y : Q) : bool :=
  match x with
  | Some q => Qle_bool q y
  | None => false
  end.

(** [x || y] for [x : string | undefined] and [y : string | null]. *)
Definition orElse (x : option string) (y : option string) : option string :=
  match x with
  | Some s => if truthyString s then Some s else y
  | None => y
  end.

(** [x || null] for [x : string | null | undefined]. *)
Definition orNull (x : Optional string) : option string :=
  match x with
  | Defined s => if truthyString s then Some s else None
  | Null | Undefined => None
  end.

Definition digitChar (d : Z) : ascii := ascii_of_nat (48 + Z.to_nat d).

Definition isDigit (c : ascii) : bool :=
  let n := nat_of_ascii c in (48 <=? n)%nat && (n <=? 57)%nat.

(** The digits of [n], least significant first produced, accumulated in
    front of [acc]; [fuel] bounds the number of digits. *)
Fixpoint digitsAux (fuel : nat) (n : Z) (acc : string) : string :=
  match fuel with
  | O => acc
  | S fuel' =>
      let acc' := String (digitChar (n mod 10)) acc in
      if n / 10 =? 0 then acc' else digitsAux fuel' (n / 10) acc'
  end.

Definition decimalDigits (n : Z) : string :=
  digitsAux (S (Z.to_nat (Z.log2 n))) n "".

(** [String(n)] and [`${n}`] for an integer-valued number below 1e21. *)
Definition numberToString (n : Z) : string :=
  if n <? 0 then "-" ++ decimalDigits (- n) else decimalDigits n.

(** [n] characters of [padString] repeated, [rest] being what is left of the
    copy in progress. *)
Fixpoint filler (n : nat) (padString rest : string) : string :=
  match n with
  | O => ""
  | S n' =>
      match rest with
      | String c r => String c (filler n' padString r)
      | EmptyString =>
          match padString with
          | String c r => String c (filler n' padString r)
          | EmptyString => ""
          end
      end
  end.

(** [s.padStart(targetLength, padString)]. *)
Definition padStart (s : string) (targetLength : nat) (padString : string) : string :=
  if (targetLength <=? String.length s)%nat then s
  else filler (targetLength - String.length s) padString "" ++ s.

(** Reading a string of decimal digits back. *)
Definition digitValue (c : ascii) : Z := Z.of_nat (nat_of_ascii c) - 48.

Fixpoint parseDigitsFrom (a : Z) (s : string) : Z :=
  match s with
  | EmptyString => a
  | String c r => parseDigitsFrom (10 * a + digitValue c) r
  end.

Definition parseDigits (s : string) : Z := parseDigitsFrom 0 s.

Fixpoint allDigits (s : string) : bool :=
  match s with
  | EmptyString => true
  | String c r => isDigit c && allDigits r
  end.

(** [Map<string, V>]: entries in insertion order, at most one per key. *)
Section MapOps.
Context {V : Type}.

Fixpoint mapGet (m : list (string * V)) (k : string) : option V :=
  match m with
  | [] => None
  | (k', v) :: r => if String.eqb k' k then Some v else mapGet r k
  end.

(** [m.set(k, v)]: an existing key keeps its position, a new one goes last. *)
Fixpoint mapSet (m : list (string * V)) (k : string) (v : V) : list (string * V) :=
  match m with
  | [] => [(k, v)]
  | (k', v') :: r =>
      if String.eqb k' k then (k, v) :: r else (k', v') :: mapSet r k v
  end.

Definition mapValues (m : list (string * V)) : list V := map snd m.

Definition mapKeys (m : list (string * V)) : list string := map fst m.

End MapOps.

End Js.

(** Finite binary64 numbers that are not negative, [mantissa * 2 ^ exponent]
    with a mantissa of at most 53 bits and an exponent from -1074 on, and
    the two operations [createBooking] applies to [Math.random()]. *)
Module Double.

Record t := mk { mantissa : Z; exponent : Z }.

Definition wellFormed (x : t) : Prop :=
  0 <= mantissa x < 2 ^ 53 /\ -1074 <= exponent x.

(** The number a double stands for. *)
Definition toQ (x : t) : Q :=
  if 0 <=? exponent x then inject_Z (mantissa x * 2 ^ exponent x)
  else Qmake (mantissa x) (Z.to_pos (2 ^ (- exponent x))).

(** An integer below [2 ^ 53] as a double. *)
Definition ofZ (n : Z) : t := mk n 0.

(** [n / 2 ^ s] rounded to the nearest integer, a tie to the even one. *)
Definition roundHalfEven (n s : Z) : Z :=
  let q := n / 2 ^ s in
  let r := n mod 2 ^ s in
  let half := 2 ^ (s - 1) in
  if r <? half then q
  else if half <? r then q + 1
  else if Z.even q then q else q + 1.

(** The double nearest to [n * 2 ^ e], below the overflow threshold: the low
    bits beyond 53, or below [2 ^ -1074], are rounded away. *)
Definition round (n e : Z) : t :=
  let s := Z.max (Z.log2 n - 52) (-1074 - e) in
  if s <=? 0 then mk n e else mk (roundHalfEven n s) (e + s).

(** [x * y]: the exact product, rounded. *)
Definition mul (x y : t) : t :=
  round (mantissa x * mantissa y) (exponent x + exponent y).

(** [Math.floor(x)]. *)
Definition floor (x : t) : Z :=
  if 0 <=? exponent x then mantissa x * 2 ^ exponent x
  else mantissa x / 2 ^ (- exponent x).

End Double.

(** ** shared/schema.ts: record types *)

Module User.
Record t := mk { id : string; username : string; password : string }.
End User.

Module InsertUser.
Record t := mk { username : string; password : string }.
End InsertUser.

Module Experience.
Record t := mk {
  id : string;
  name : string;
  description : string;
  price : string;
  duration : string;
  image : string;
  type : string
}.
End Experience.

Module InsertExperience.
Record t := mk {
  name : string;
  description : string;
  price : string;
  duration : string;
  image : string;
  type : string
}.
End InsertExperience.

(** [InsertBooking = z.infer<typeof insertBookingSchema>]. *)
Module InsertBooking.
Record t := mk {
  experienceId : string;
  firstName : string;
  lastName : string;
  email : string;
  phone : string;
  checkinDate : string;
  checkoutDate : string;
  participants : Q;
  specialRequests : Js.Optional string;
  totalAmount : string
}.
End InsertBooking.

(** [Booking = typeof bookings.$inferSelect]: columns without [notNull()]
    are [string | null]; [createdAt] is a time in milliseconds. *)
Module Booking.
Record t := mk {
  id : string;
  referenceNumber : string;
  experienceId : string;
  firstName : string;
  lastName : string;
  email : string;
  phone : string;
  checkinDate : string;
  checkoutDate : string;
  participants : Q;
  specialRequests : option string;
  totalAmount : string;
  paymentStatus : option string;
  stripePaymentIntentId : option string;
  createdAt : Z
}.
End Booking.

(** What one request reads from the outside world. *)
Module Env.
Record t := mk {
  randomUUID : string;      (* randomUUID() *)
  getFullYear : Z;          (* new Date().getFullYear() *)
  mathRandom : Double.t;    (* Math.random() *)
  newDate : Z;              (* new Date(), for createdAt *)
  dateNow1 : Z;             (* first Date.now() of a handler *)
  dateNow2 : Z              (* second Date.now() of a handler *)
}.
End Env.

(** ** storage.ts *)

Module MemStorage.

Record t := mk {
  users : list (string * User.t);
  experiences : list (string * Experience.t);
  bookings : list (string * Booking.t)
}.

Definition defaultExperiences : list Experience.t :=
  [ Experience.mk "meditation-retreats" "Meditation Retreats"
      "Join guided meditation sessions with Buddhist monks in serene monastery settings."
      "120.00" "3-7 days"
      "https://images.unsplash.com/photo-1506905925346-21bda4d32df4?ixlib=rb-4.0.3&auto=format&fit=crop&w=600&h=300"
      "meditation-retreats";
    Experience.mk "monastery-treks" "Monastery Treks"
      "Embark on scenic treks to remote monasteries through pristine Himalayan landscapes."
      "200.00" "5-10 days"
      "https://images.unsplash.com/photo-1544735716-392fe2489ffa?ixlib=rb-4.0.3&auto=format&fit=crop&w=600&h=300"
      "monastery-treks";
    Experience.mk "cultural-workshops" "Cultural Workshops"
      "Learn traditional Buddhist arts, crafts, and philosophy from local masters."
      "80.00" "2-5 days"
      "https://images.unsplash.com/photo-1578662996442-48f60103fc96?ixlib=rb-4.0.3&auto=format&fit=crop&w=600&h=300"
      "cultural-workshops";
    Experience.mk "sunrise-tours" "Sunrise Tours"
      "Witness breathtaking sunrises over the Himalayas from monastery viewpoints."
      "60.00" "1-2 days"
      "https://images.unsplash.com/photo-1506905925346-21bda4d32df4?ixlib=rb-4.0.3&auto=format&fit=crop&w=600&h=300"
      "sunrise-tours" ].

Definition initializeExperiences (this : t) : t :=
  fold_left
    (fun st exp =>
       mk (users st) (Js.mapSet (experiences st) (Experience.id exp) exp) (bookings st))
    defaultExperiences this.

(** [new MemStorage()]. *)
Definition new : t := initializeExperiences (mk [] [] []).

Definition getUser (this : t) (id : string) : option User.t :=
  Js.mapGet (users this) id.

Definition getUserByUsername (this : t) (username : string) : option User.t :=
  find (fun user => String.eqb (User.username user) username)
       (Js.mapValues (users this)).

Definition createUser (this : t) (insertUser : InsertUser.t) (env : Env.t)
  : t * User.t :=
  let id := Env.randomUUID env in
  let user :=
    User.mk id (InsertUser.username insertUser) (InsertUser.password insertUser) in
  (mk (Js.mapSet (users this) id user) (experiences this) (bookings this), user).

Definition getAllExperiences (this : t) : list Experience.t :=
  Js.mapValues (experiences this).

Definition getExperience (this : t) (id : string) : option Experience.t :=
  Js.mapGet (experiences this) id.

Definition createExperience (this : t) (insertExperience : InsertExperience.t)
  (env : Env.t) : t * Experience.t :=
  let id := Env.randomUUID env in
  let experience :=
    Experience.mk id
      (InsertExperience.name insertExperience)
      (InsertExperience.description insertExperience)
      (InsertExperience.price insertExperience)
      (InsertExperience.duration insertExperience)
      (InsertExperience.image insertExperience)
      (InsertExperience.type insertExperience) in
  (mk (users this) (Js.mapSet (experiences this) id experience) (bookings this),
   experience).

Definition getBooking (this : t) (id : string) : option Booking.t :=
  Js.mapGet (bookings this) id.

Definition getBookingByReference (this : t) (referenceNumber : string)
  : option Booking.t :=
  find (fun booking => String.eqb (Booking.referenceNumber booking) referenceNumber)
       (Js.mapValues (bookings this)).

(** [Math.floor(Math.random() * 999999)]. *)
Definition randomComponent (random : Double.t) : Z :=
  Double.floor (Double.mul random (Double.ofZ 999999)).

(** The template literal of [createBooking]. *)
Definition makeReferenceNumber (fullYear : Z) (random : Double.t) : string :=
  ("SM-" ++ Js.numberToString fullYear ++ "-"
     ++ Js.padStart (Js.numberToString (randomComponent random)) 6 "0")%string.

Definition createBooking (this : t) (insertBooking : InsertBooking.t) (env : Env.t)
  : t * Booking.t :=
  let id := Env.randomUUID env in
  let referenceNumber := makeReferenceNumber (Env.getFullYear env) (Env.mathRandom env) in
  let booking :=
    {| Booking.id := id;
       Booking.referenceNumber := referenceNumber;
       Booking.experienceId := InsertBooking.experienceId insertBooking;
       Booking.firstName := InsertBooking.firstName insertBooking;
       Booking.lastName := InsertBooking.lastName insertBooking;
       Booking.email := InsertBooking.email insertBooking;
       Booking.phone := InsertBooking.phone insertBooking;
       Booking.checkinDate := InsertBooking.checkinDate insertBooking;
       Booking.checkoutDate := InsertBooking.checkoutDate insertBooking;
       Booking.participants := InsertBooking.participants insertBooking;
       Booking.specialRequests := Js.orNull (InsertBooking.specialRequests insertBooking);
       Booking.totalAmount := InsertBooking.totalAmount insertBooking;
       Booking.paymentStatus := Some "pending";
       Booking.stripePaymentIntentId := None;
       Booking.createdAt := Env.newDate env |} in
  (mk (users this) (experiences this) (Js.mapSet (bookings this) id booking), booking).

Definition updateBookingPaymentStatus
  (this : t) (id : string) (status : string) (paymentIntentId : option string)
  : t * option Booking.t :=
  match Js.mapGet (bookings this) id with
  | None => (this, None)
  | Some booking =>
      let updatedBooking :=
        {| Booking.id := Booking.id booking;
           Booking.referenceNumber := Booking.referenceNumber booking;
           Booking.experienceId := Booking.experienceId booking;
           Booking.firstName := Booking.firstName booking;
           Booking.lastName := Booking.lastName booking;
           Booking.email := Booking.email booking;
           Booking.phone := Booking.phone booking;
           Booking.checkinDate := Booking.checkinDate booking;
           Booking.checkoutDate := Booking.checkoutDate booking;
           Booking.participants := Booking.participants booking;
           Booking.specialRequests := Booking.specialRequests booking;
           Booking.totalAmount := Booking.totalAmount booking;
           Booking.paymentStatus := Some status;
           Booking.stripePaymentIntentId :=
             Js.orElse paymentIntentId (Booking.stripePaymentIntentId booking);
           Booking.createdAt := Booking.createdAt booking |} in
      (mk (users this) (experiences this) (Js.mapSet (bookings this) id updatedBooking),
       Some updatedBooking)
  end.

End MemStorage.

(** Two records that differ at most in the two payment fields. *)
Definition agreeExceptPayment (b b' : Booking.t) : Prop :=
  Booking.id b' = Booking.id b
  /\ Booking.referenceNumber b' = Booking.referenceNumber b
  /\ Booking.experienceId b' = Booking.experienceId b
  /\ Booking.firstName b' = Booking.firstName b
  /\ Booking.lastName b' = Booking.lastName b
  /\ Booking.email b' = Booking.email b
  /\ Booking.phone b' = Booking.phone b
  /\ Booking.checkinDate b' = Booking.checkinDate b
  /\ Booking.checkoutDate b' = Booking.checkoutDate b
  /\ Booking.participants b' = Booking.participants b
  /\ Booking.specialRequests b' = Booking.specialRequests b
  /\ Booking.totalAmount b' = Booking.totalAmount b
  /\ Booking.createdAt b' = Booking.createdAt b.

(** A booking with its two payment fields replaced. *)
Definition withPayment (b : Booking.t) (status : string) (intent : option string)
  : Booking.t :=
  {| Booking.id := Booking.id b;
     Booking.referenceNumber := Booking.referenceNumber b;
     Booking.experienceId := Booking.experienceId b;
     Booking.firstName := Booking.firstName b;
     Booking.lastName := Booking.lastName b;
     Booking.email := Booking.email b;
     Booking.phone := Booking.phone b;
     Booking.checkinDate := Booking.checkinDate b;
     Booking.checkoutDate := Booking.checkoutDate b;
     Booking.participants := Booking.participants b;
     Booking.specialRequests := Booking.specialRequests b;
     Booking.totalAmount := Booking.totalAmount b;
     Booking.paymentStatus := Some status;
     Booking.stripePaymentIntentId := intent;
     Booking.createdAt := Booking.createdAt b |}.

(** The payment statuses the handlers write. *)
Definition mockFlowStatus (b : Booking.t) : Prop :=
  Booking.paymentStatus b = Some "pending"
  \/ Booking.paymentStatus b = Some "processing"
  \/ Booking.paymentStatus b = Some "completed".

(** In the order of the entries, the booking under the identifier of [b]
    comes before every booking with the reference number of [b], and differs
    from [b] at most in the payment fields. *)
Fixpoint leadsItsReference (b : Booking.t) (m : list (string * Booking.t)) : Prop :=
  match m with
  | [] => False
  | (k, v) :: rest =>
      if String.eqb k (Booking.id b) then agreeExceptPayment b v
      else Booking.referenceNumber v <> Booking.referenceNumber b
           /\ leadsItsReference b rest
  end.

(** The two operations of the store that write bookings, and a sequence of
    them. *)
Inductive BookingOp :=
| Create (insertBooking : InsertBooking.t) (env : Env.t)
| Update (id : string) (status : string) (paymentIntentId : option string).

Definition applyOp (this : MemStorage.t) (op : BookingOp) : MemStorage.t :=
  match op with
  | Create insertBooking env => fst (MemStorage.createBooking this insertBooking env)
  | Update id status paymentIntentId =>
      fst (MemStorage.updateBookingPaymentStatus this id status paymentIntentId)
  end.

Definition applyOps (this : MemStorage.t) (ops : list BookingOp) : MemStorage.t :=
  fold_left applyOp ops this.

(** Every creation of the sequence draws an identifier that is not in the
    store at that time, as [randomUUID] is meant to. *)
Fixpoint freshIds (this : MemStorage.t) (ops : list BookingOp) : Prop :=
  match ops with
  | [] => True
  | op :: rest =>
      match op with
      | Create _ env => MemStorage.getBooking this (Env.randomUUID env) = None
      | Update _ _ _ => True
      end
      /\ freshIds (applyOp this op) rest
  end.

(** The shape of a reference number, [/^SM-\d{4}-\d{6}$/], and its two
    numeric fields. *)
Module Reference.

Definition wellFormed (s : string) : bool :=
  (String.length s =? 14)%nat
  && String.eqb (substring 0 3 s) "SM-"
  && Js.allDigits (substring 3 4 s)
  && String.eqb (substring 7 1 s) "-"
  && Js.allDigits (substring 8 6 s).

Definition year (s : string) : Z := Js.parseDigits (substring 3 4 s).

Definition serial (s : string) : Z := Js.parseDigits (substring 8 6 s).

End Reference.

(** ** Request validation: zod and drizzle-zod on [shared/schema.ts] *)

Module Zod.

(** A parsed JSON value; a key missing from an object reads as [undefined],
    here a failed lookup. *)
Unset Elimination Schemes.
Inductive JsonValue :=
| JNull
| JBool (b : bool)
| JNumber (q : Q)
| JString (s : string)
| JArray (items : list JsonValue)
| JObject (members : list (string * JsonValue)).
Set Elimination Schemes.

(** zod's [getParsedType]. *)
Definition parsedType (v : option JsonValue) : string :=
  match v with
  | None => "undefined"
  | Some JNull => "null"
  | Some (JBool _) => "boolean"
  | Some (JNumber _) => "number"
  | Some (JString _) => "string"
  | Some (JArray _) => "array"
  | Some (JObject _) => "object"
  end.

Definition isString (v : option JsonValue) : bool :=
  match v with
  | Some (JString _) => true
  | _ => false
  end.

Record ZodIssue := mkIssue {
  code : string;
  path : list string;
  message : string
}.

(** The columns of a [pgTable] as [createInsertSchema] reads them. *)
Inductive DataType := Varchar | Text | Integer | Decimal | Timestamp.

Record Column := mkColumn {
  key : string;
  dataType : DataType;
  notNull : bool;
  hasDefault : bool
}.

(** [export const bookings = pgTable("bookings", {...})]. *)
Definition bookings : list Column :=
  [ mkColumn "id" Varchar true true;
    mkColumn "referenceNumber" Text true false;
    mkColumn "experienceId" Varchar true false;
    mkColumn "firstName" Text true false;
    mkColumn "lastName" Text true false;
    mkColumn "email" Text true false;
    mkColumn "phone" Text true false;
    mkColumn "checkinDate" Text true false;
    mkColumn "checkoutDate" Text true false;
    mkColumn "participants" Integer true false;
    mkColumn "specialRequests" Text false false;
    mkColumn "totalAmount" Decimal true false;
    mkColumn "paymentStatus" Text false true;
    mkColumn "stripePaymentIntentId" Text false false;
    mkColumn "createdAt" Timestamp true true ].

Inductive BaseSchema := ZString | ZNumber | ZDate.

Record FieldSchema := mkField {
  base : BaseSchema;
  nullable : bool;
  optional : bool
}.

(** drizzle-zod: text, varchar and decimal columns are strings, integer
    columns numbers, timestamps dates; a column that may be null is nullable
    and optional, a column with a default is optional. *)
Definition columnToSchema (d : DataType) : BaseSchema :=
  match d with
  | Varchar | Text | Decimal => ZString
  | Integer => ZNumber
  | Timestamp => ZDate
  end.

Definition createInsertSchema (table : list Column) : list (string * FieldSchema) :=
  map (fun c =>
         (key c, mkField (columnToSchema (dataType c))
                         (negb (notNull c))
                         (negb (notNull c) || hasDefault c)))
      table.

Definition omit (keys : list string) (shape : list (string * FieldSchema))
  : list (string * FieldSchema) :=
  filter (fun kf => negb (existsb (String.eqb (fst kf)) keys)) shape.

(** [export const insertBookingSchema = createInsertSchema(bookings).omit({...})]. *)
Definition insertBookingSchema : list (string * FieldSchema) :=
  omit ["id"; "referenceNumber"; "createdAt"; "paymentStatus"; "stripePaymentIntentId"]
       (createInsertSchema bookings).

(** zod's default error map for [invalid_type]. *)
Definition invalidType (expected : string) (v : option JsonValue) (k : string)
  : ZodIssue :=
  mkIssue "invalid_type" [k]
    (match v with
     | None => "Required"
     | Some _ => ("Expected " ++ expected ++ ", received " ++ parsedType v)%string
     end).

Section Parse.

(** The refinements drizzle-zod attaches to the number of an integer column
    (none, or integrality and the 32-bit range, by its version): the code
    and message of each one the number fails. *)
Variable integerColumnChecks : Q -> list (string * string).

Definition baseIssues (b : BaseSchema) (k : string) (v : option JsonValue)
  : list ZodIssue :=
  match b, v with
  | ZString, Some (JString _) => []
  | ZString, _ => [invalidType "string" v k]
  | ZNumber, Some (JNumber q) =>
      map (fun cm => mkIssue (fst cm) [k] (snd cm)) (integerColumnChecks q)
  | ZNumber, _ => [invalidType "number" v k]
  | ZDate, _ => [invalidType "date" v k]
  end.

(** [ZodOptional] lets [undefined] through, [ZodNullable] lets [null]. *)
Definition fieldIssues (f : FieldSchema) (k : string) (v : option JsonValue)
  : list ZodIssue :=
  match v with
  | None => if optional f then [] else baseIssues (base f) k v
  | Some JNull => if nullable f then [] else baseIssues (base f) k v
  | Some _ => baseIssues (base f) k v
  end.

(** [ZodObject._parse]: every key of the shape is parsed and the issues of
    all of them are collected, in the order of the shape. *)
Definition objectIssues (shape : list (string * FieldSchema))
  (body : gmap string JsonValue) : list ZodIssue :=
  flat_map (fun kf => fieldIssues (snd kf) (fst kf) (body !! fst kf)) shape.

Definition getString (body : gmap string JsonValue) (k : string) : string :=
  match body !! k with Some (JString s) => s | _ => "" end.

Definition getNumber (body : gmap string JsonValue) (k : string) : Q :=
  match body !! k with Some (JNumber q) => q | _ => 0%Q end.

Definition getOptionalString (body : gmap string JsonValue) (k : string)
  : Js.Optional string :=
  match body !! k with
  | Some (JString s) => Js.Defined s
  | Some JNull => Js.Null
  | _ => Js.Undefined
  end.

(** The parsed value: the keys of the shape, unknown keys stripped. *)
Definition normalize (body : gmap string JsonValue) : InsertBooking.t :=
  {| InsertBooking.experienceId := getString body "experienceId";
     InsertBooking.firstName := getString body "firstName";
     InsertBooking.lastName := getString body "lastName";
     InsertBooking.email := getString body "email";
     InsertBooking.phone := getString body "phone";
     InsertBooking.checkinDate := getString body "checkinDate";
     InsertBooking.checkoutDate := getString body "checkoutDate";
     InsertBooking.participants := getNumber body "participants";
     InsertBooking.specialRequests := getOptionalString body "specialRequests";
     InsertBooking.totalAmount := getString body "totalAmount" |}.

(** [insertBookingSchema.parse(body)]: the value, or a [ZodError] thrown
    with every issue found. *)
Definition parse (body : gmap string JsonValue) : InsertBooking.t + list ZodIssue :=
  match objectIssues insertBookingSchema body with
  | [] => inl (normalize body)
  | errors => inr errors
  end.

End Parse.

(** The refinements of drizzle-zod 0.7 on an [integer] column:
    [z.number().gte(-2147483648).lte(2147483647).int()]. *)
Definition int32Checks (q : Q) : list (string * string) :=
  (if Qle_bool (-2147483648) q then []
   else [("too_small", "Number must be greater than or equal to -2147483648")])
  ++ (if Qle_bool q 2147483647 then []
      else [("too_big", "Number must be less than or equal to 2147483647")])
  ++ (if Qeq_bool (inject_Z (Qfloor q)) q then []
      else [("invalid_type", "Expected integer, received float")]).

End Zod.

(** ** The routes: [registerRoutes] *)

Module Routes.

(** The requests of the six routes.  The bodies of the two payment routes
    are read through their declared interface: [amount] a number or missing,
    the identifiers strings or missing. *)
Inductive Request :=
| GetExperiences
| GetExperience (id : string)
| PostBookings (body : gmap string Zod.JsonValue)
| GetBooking (reference : string)
| PostCreatePaymentIntent (amount : option Q) (bookingId : option string)
| PostConfirmPayment (paymentIntentId : option string) (bookingId : option string).

(** What [res.json] is given. *)
Inductive Json :=
| Experiences (l : list Experience.t)
| AnExperience (e : Experience.t)
| ABooking (b : Booking.t)
| Message (message : string)
| ValidationError (message : string) (errors : list Zod.ZodIssue)
| PaymentIntent (clientSecret : string) (paymentIntentId : string)
| Confirmation (success : bool) (booking : option Booking.t) (paymentStatus : string).

Record Response := mkResponse { status : Z; json : Json }.

(** [res.json(x)] without [res.status] answers 200. *)
Definition ok (x : Json) : Response := mkResponse 200 x.

Section Handlers.

Variable integerColumnChecks : Q -> list (string * string).

Definition getExperiences (storage : MemStorage.t) : MemStorage.t * Response :=
  (storage, ok (Experiences (MemStorage.getAllExperiences storage))).

Definition getExperience (storage : MemStorage.t) (id : string)
  : MemStorage.t * Response :=
  match MemStorage.getExperience storage id with
  | None => (storage, mkResponse 404 (Message "Experience not found"))
  | Some experience => (storage, ok (AnExperience experience))
  end.

Definition postBookings (storage : MemStorage.t) (env : Env.t)
  (body : gmap string Zod.JsonValue) : MemStorage.t * Response :=
  match Zod.parse integerColumnChecks body with
  | inr errors => (storage, mkResponse 400 (ValidationError "Validation error" errors))
  | inl validatedData =>
      let '(storage', booking) := MemStorage.createBooking storage validatedData env in
      (storage', mkResponse 201 (ABooking booking))
  end.

Definition getBooking (storage : MemStorage.t) (reference : string)
  : MemStorage.t * Response :=
  match MemStorage.getBookingByReference storage reference with
  | None => (storage, mkResponse 404 (Message "Booking not found"))
  | Some booking => (storage, ok (ABooking booking))
  end.

Definition postCreatePaymentIntent (storage : MemStorage.t) (env : Env.t)
  (amount : option Q) (bookingId : option string) : MemStorage.t * Response :=
  if negb (Js.truthyNumber amount) || Js.leNumber amount 0
  then (storage, mkResponse 400 (Message "Valid amount is required"))
  else
    let mockPaymentIntentId :=
      ("pi_mock_" ++ Js.numberToString (Env.dateNow1 env))%string in
    let storage' :=
      match bookingId with
      | Some bookingId' =>
          if Js.truthyString bookingId'
          then fst (MemStorage.updateBookingPaymentStatus
                      storage bookingId' "processing" (Some mockPaymentIntentId))
          else storage
      | None => storage
      end in
    (storage',
     ok (PaymentIntent
           ("pi_mock_" ++ Js.numberToString (Env.dateNow2 env) ++ "_secret_mock")%string
           mockPaymentIntentId)).

(** The guard [!paymentIntentId || !bookingId] holds for a field that is
    missing and for one that is the empty string. *)
Definition postConfirmPayment (storage : MemStorage.t)
  (paymentIntentId : option string) (bookingId : option string)
  : MemStorage.t * Response :=
  match paymentIntentId, bookingId with
  | Some paymentIntentId', Some bookingId' =>
      if negb (Js.truthyString paymentIntentId') || negb (Js.truthyString bookingId')
      then (storage,
            mkResponse 400 (Message "Payment intent ID and booking ID are required"))
      else
        let '(storage', updatedBooking) :=
          MemStorage.updateBookingPaymentStatus
            storage bookingId' "completed" (Some paymentIntentId') in
        (storage', ok (Confirmation true updatedBooking "succeeded"))
  | _, _ =>
      (storage, mkResponse 400 (Message "Payment intent ID and booking ID are required"))
  end.

(** One request served against the store. *)
Definition handle (storage : MemStorage.t) (env : Env.t) (req : Request)
  : MemStorage.t * Response :=
  match req with
  | GetExperiences => getExperiences storage
  | GetExperience id => getExperience storage id
  | PostBookings body => postBookings storage env body
  | GetBooking reference => getBooking storage reference
  | PostCreatePaymentIntent amount bookingId =>
      postCreatePaymentIntent storage env amount bookingId
  | PostConfirmPayment paymentIntentId bookingId =>
      postConfirmPayment storage paymentIntentId bookingId
  end.

(** The store after a sequence of requests, each with its own readings. *)
Definition run (storage : MemStorage.t) (reqs : list (Env.t * Request)) : MemStorage.t :=
  fold_left (fun st er => fst (handle st (fst er) (snd er))) reqs storage.

End Handlers.

End Routes.

(** ** Sample data *)

Module Sample.

Definition insertBooking : InsertBooking.t :=
  InsertBooking.mk "meditation-retreats" "A" "B" "a@b.com" "123"
    "2025-01-01" "2025-01-03" 2%Q Js.Undefined "240.00".

(** The double nearest to 42/999999, a little below it. *)
Definition random42 : Double.t := Double.mk 6198112206878616 (-67).

Definition env1 : Env.t :=
  Env.mk "6f1c2a9e-0001" 2025 random42 1735725600000 1735725600500 1735725600501.

(** Another identifier, the same year and the same draw. *)
Definition env2 : Env.t :=
  Env.mk "6f1c2a9e-0002" 2025 random42 1735725700000 1735725700500 1735725700501.

(** One booking created in the initial store. *)
Definition store1 : MemStorage.t :=
  fst (MemStorage.createBooking MemStorage.new insertBooking env1).

(** The same booking once a payment intent was attached. *)
Definition store1' : MemStorage.t :=
  fst (MemStorage.updateBookingPaymentStatus
         store1 "6f1c2a9e-0001" "processing" (Some "pi_mock_1735725600500")).

(** Two bookings with the same year and draw. *)
Definition store2 : MemStorage.t :=
  fst (MemStorage.createBooking store1 insertBooking env2).

(** A request body for [POST /api/bookings]. *)
Definition body : gmap string Zod.JsonValue :=
  list_to_map
    [ ("experienceId", Zod.JString "meditation-retreats");
      ("checkinDate", Zod.JString "2025-01-01");
      ("checkoutDate", Zod.JString "2025-01-03");
      ("participants", Zod.JNumber 2%Q);
      ("firstName", Zod.JString "A");
      ("lastName", Zod.JString "B");
      ("email", Zod.JString "a@b.com");
      ("phone", Zod.JString "123");
      ("totalAmount", Zod.JString "240.00") ].

(** The same with an email that is no address. *)
Definition bodyMalformedEmail : gmap string Zod.JsonValue :=
  <["email" := Zod.JString "not-an-email"]> body.

(** No email, a number for the phone and no participants. *)
Definition bodyThreeFaults : gmap string Zod.JsonValue :=
  <["phone" := Zod.JNumber 123%Q]> (delete "participants" (delete "email" body)).

End Sample.

(** ** Further definitions *)

(** The requests that create a booking draw an identifier other than [id]. *)
Definition drawsAnother (id : string) (er : Env.t * Routes.Request) : Prop :=
  match snd er with
  | Routes.PostBookings _ => Env.randomUUID (fst er) <> id
  | _ => True
  end.

(** What the insert schema asks of a body: a string under each of eight
    keys, a number that passes the integer-column checks under
    [participants], and a string, null or nothing under [specialRequests]. *)
Definition wellTyped (checks : Q -> list (string * string))
  (body : gmap string Zod.JsonValue) : Prop :=
  Zod.isString (body !! "experienceId") = true
  /\ Zod.isString (body !! "firstName") = true
  /\ Zod.isString (body !! "lastName") = true
  /\ Zod.isString (body !! "email") = true
  /\ Zod.isString (body !! "phone") = true
  /\ Zod.isString (body !! "checkinDate") = true
  /\ Zod.isString (body !! "checkoutDate") = true
  /\ (exists q : Q, body !! "participants" = Some (Zod.JNumber q) /\ checks q = [])
  /\ (body !! "specialRequests" = None
      \/ body !! "specialRequests" = Some Zod.JNull
      \/ Zod.isString (body !! "specialRequests") = true)
  /\ Zod.isString (body !! "totalAmount") = true.

(** Sample requests. *)
Module Scenario.

(** A second guest books, the first guest's payment is started again and
    then confirmed, and a reference is looked up. *)
Definition later : list (Env.t * Routes.Request) :=
  [ (Sample.env2, Routes.PostBookings Sample.body);
    (Sample.env2,
     Routes.PostCreatePaymentIntent (Some 240%Q) (Some "6f1c2a9e-0001"));
    (Sample.env2,
     Routes.PostConfirmPayment (Some "pi_mock_1735725700500") (Some "6f1c2a9e-0001"));
    (Sample.env2, Routes.GetBooking "SM-2025-000042") ].

End Scenario.

(** A body that also carries fields the server assigns. *)
Definition bodyWithServerFields : gmap string Zod.JsonValue :=
  <["paymentStatus" := Zod.JString "completed"]>
    (<["referenceNumber" := Zod.JString "SM-0000-000000"]> Sample.body).

(** A store with one user, and a registration under the same name. *)
Definition storeWithUser : MemStorage.t :=
  fst (MemStorage.createUser MemStorage.new (InsertUser.mk "tashi" "secret") Sample.env1).

Definition insertExperience : InsertExperience.t :=
  InsertExperience.mk "Prayer Flag Walks" "Walk the ridge trails." "45.00" "1 day"
    "https://example.org/flags.jpg" "prayer-flag-walks".

(** ** The booking wizard: [BookingForm.tsx] *)

Module BookingForm.

Definition totalSteps : Z := 4.

(** The state the step handlers read and write: the [useState] cells
    [currentStep], [selectedExperience], [clientSecret] and [bookingId]
    ([confirmedBooking] is never written), and the [experienceId] value of
    the form. *)
Record State := mkState {
  currentStep : Z;
  selectedExperience : option Experience.t;
  clientSecret : string;
  bookingId : string;
  experienceId : string
}.

Definition initial : State := mkState 1 None "" "" "".

Definition setCurrentStep (st : State) (step : Z) : State :=
  mkState step (selectedExperience st) (clientSecret st) (bookingId st)
    (experienceId st).

Definition handleExperienceSelect (st : State) (experience : Experience.t) : State :=
  mkState (currentStep st) (Some experience) (clientSecret st) (bookingId st)
    (Experience.id experience).

(** What happens at step 2 once "Next" is pressed: the form does not
    validate, or the booking request fails, or the booking is created (its
    [onSuccess] stores the identifier) and the payment-intent request
    fails, or both succeed (the second [onSuccess] stores the secret). *)
Inductive Submission :=
| Invalid
| BookingFailed
| IntentFailed (booking : Booking.t)
| Submitted (booking : Booking.t) (secret : string).

Definition advance (st : State) : State :=
  if currentStep st <? totalSteps then setCurrentStep st (currentStep st + 1) else st.

(** [nextStep]: the new state and the title of the toast shown, if any. *)
Definition nextStep (st : State) (submission : Submission) : State * option string :=
  if (currentStep st =? 1)
     && match selectedExperience st with None => true | Some _ => false end
  then (st, Some "Selection Required")
  else if currentStep st =? 2 then
    match submission with
    | Invalid => (st, None)
    | BookingFailed => (st, Some "Booking Error")
    | IntentFailed booking =>
        (mkState (currentStep st) (selectedExperience st) (clientSecret st)
           (Booking.id booking) (experienceId st),
         Some "Booking Error")
    | Submitted booking secret =>
        (advance (mkState (currentStep st) (selectedExperience st) secret
                    (Booking.id booking) (experienceId st)),
         None)
    end
  else (advance st, None).

Definition previousStep (st : State) : State :=
  if currentStep st >? 1 then setCurrentStep st (currentStep st - 1) else st.

Definition handlePaymentSuccess (st : State) : State := setCurrentStep st 4.

(** What the user, or the payment form, can trigger. *)
Inductive Event :=
| Select (experience : Experience.t)
| Next (submission : Submission)
| Previous
| PaymentSuccess.

Definition step (st : State) (ev : Event) : State :=
  match ev with
  | Select experience => handleExperienceSelect st experience
  | Next submission => fst (nextStep st submission)
  | Previous => previousStep st
  | PaymentSuccess => handlePaymentSuccess st
  end.

Definition run (st : State) (events : list Event) : State := fold_left step events st.

(** What the component renders at a step: the experience cards at step 1,
    the two buttons below step 4 ("Previous" disabled at step 1), the
    payment form at step 3. *)
Definition rendered (st : State) (ev : Event) : Prop :=
  match ev with
  | Select _ => currentStep st = 1
  | Next _ => currentStep st < 4
  | Previous => currentStep st < 4 /\ currentStep st <> 1
  | PaymentSuccess => currentStep st = 3
  end.

(** Every event of the sequence is one the component renders when it
    comes. *)
Fixpoint allRendered (st : State) (events : list Event) : Prop :=
  match events with
  | [] => True
  | ev :: rest => rendered st ev /\ allRendered (step st ev) rest
  end.

(** The bookings the server answers with have an identifier. *)
Definition identified (ev : Event) : Prop :=
  match ev with
  | Next (IntentFailed booking) | Next (Submitted booking _) => Booking.id booking <> ""
  | _ => True
  end.

Section Total.

(** [parseFloat(s)] and [new Date(s).getTime()], [None] standing for NaN. *)
Variable parseFloat : string -> option Q.
Variable getTime : string -> option Z.

(** [Math.ceil(a / b)] for a positive [b]. *)
Definition ceilDiv (a b : Z) : Z := - ((- a) / b).

(** [form.watch('participants') || 1]. *)
Definition participantsOrOne (participants : option Q) : Q :=
  match participants with
  | Some q => if Qeq_bool q 0 then 1%Q else q
  | None => 1%Q
  end.

(** [calculateTotal], from the selected experience and the watched form
    values; numbers are exact and [None] stands for NaN. *)
Definition calculateTotal (selectedExperience : option Experience.t)
  (participants : option Q) (checkin checkout : string) : option Q :=
  match selectedExperience with
  | None => Some 0%Q
  | Some experience =>
      let participants := participantsOrOne participants in
      if Js.truthyString checkin && Js.truthyString checkout then
        match getTime checkout, getTime checkin, parseFloat (Experience.price experience) with
        | Some t2, Some t1, Some price =>
            let days := ceilDiv (t2 - t1) (1000 * 3600 * 24) in
            Some (price * participants * inject_Z (Z.max 1 days))%Q
        | _, _, _ => None
        end
      else
        match parseFloat (Experience.price experience) with
        | Some price => Some (price * participants)%Q
        | None => None
        end
  end.

End Total.

End BookingForm.

(** Sample readings for the wizard: a price and two dates. *)
Module WizardSample.

Definition experience : Experience.t :=
  Experience.mk "meditation-retreats" "Meditation Retreats" "Guided sessions."
    "120.00" "3-7 days" "https://example.org/retreat.jpg" "meditation-retreats".

Definition parseFloat (s : string) : option Q :=
  if String.eqb s "120.00" then Some 120%Q else None.

Definition getTime (s : string) : option Z :=
  if String.eqb s "2025-01-01" then Some 1735689600000
  else if String.eqb s "2025-01-03" then Some 1735862400000
  else None.

Definition booking : Booking.t :=
  snd (MemStorage.createBooking MemStorage.new Sample.insertBooking Sample.env1).

Definition events : list BookingForm.Event :=
  [ BookingForm.Select experience;
    BookingForm.Next BookingForm.Invalid;
    BookingForm.Next BookingForm.Invalid;
    BookingForm.Next (BookingForm.Submitted booking "pi_mock_1735725600501_secret_mock");
    BookingForm.Previous;
    BookingForm.Next (BookingForm.IntentFailed booking) ].

End WizardSample.

(** Two creations in one year whose [Math.random()] differ,
    0.6849406849406849 and 0.6849411849411848, and whose draws are both
    684940. *)
Definition envA : Env.t :=
  Env.mk "6f1c2a9e-000a" 2025 (Double.mk 6169397226939522 (-53))
    1735725600000 1735725600500 1735725600501.

Definition envB : Env.t :=
  Env.mk "6f1c2a9e-000b" 2025 (Double.mk 6169401730543652 (-53))
    1735725700000 1735725700500 1735725700501.

(** * Properties *)

(** ** Decimal printing and padding *)

Section DecimalFacts.

Local Ltac digit_cases d :=
  let H := fresh in
  assert (H : d = 0 \/ d = 1 \/ d = 2 \/ d = 3 \/ d = 4 \/
              d = 5 \/ d = 6 \/ d = 7 \/ d = 8 \/ d = 9) by lia;
  repeat (destruct H as [H | H]; [rewrite H; reflexivity |]);
  rewrite H; reflexivity.

Lemma isDigit_digitChar (d : Z) : 0 <= d < 10 -> Js.isDigit (Js.digitChar d) = true.
Proof. intros Hd. digit_cases d. Qed.

Lemma digitValue_digitChar (d : Z) : 0 <= d < 10 -> Js.digitValue (Js.digitChar d) = d.
Proof. intros Hd. digit_cases d. Qed.

Lemma append_nil (t : string) : ("" ++ t)%string = t.
Proof. reflexivity. Qed.

Lemma append_cons (c : ascii) (s t : string) :
  (String c s ++ t)%string = String c (s ++ t).
Proof. reflexivity. Qed.

Lemma append_assoc (s t u : string) : ((s ++ t) ++ u = s ++ (t ++ u))%string.
Proof.
  induction s as [| c s IH]; [reflexivity |].
  rewrite !append_cons, IH. reflexivity.
Qed.

Lemma length_append (s t : string) :
  String.length (s ++ t) = (String.length s + String.length t)%nat.
Proof.
  induction s as [| c s IH]; [reflexivity |].
  rewrite append_cons. cbn [String.length]. rewrite IH. reflexivity.
Qed.

Lemma allDigits_app (s t : string) :
  Js.allDigits (s ++ t) = Js.allDigits s && Js.allDigits t.
Proof.
  induction s as [| c s IH]; [reflexivity |].
  rewrite append_cons. cbn [Js.allDigits]. rewrite IH. apply andb_assoc.
Qed.

Lemma parseDigitsFrom_app (s t : string) (a : Z) :
  Js.parseDigitsFrom a (s ++ t) = Js.parseDigitsFrom (Js.parseDigitsFrom a s) t.
Proof.
  revert a. induction s as [| c s IH]; intros a; [reflexivity |].
  rewrite append_cons. cbn [Js.parseDigitsFrom]. apply IH.
Qed.

(** The accumulator is only ever extended in front. *)
Lemma digitsAux_acc (fuel : nat) (n : Z) (acc : string) :
  Js.digitsAux fuel n acc = (Js.digitsAux fuel n "" ++ acc)%string.
Proof.
  revert n acc. induction fuel as [| fuel IH]; intros n acc;
    cbn [Js.digitsAux]; [reflexivity |].
  destruct (n / 10 =? 0); [reflexivity |].
  rewrite (IH _ (String _ acc)), (IH _ (String _ "")).
  rewrite append_assoc. reflexivity.
Qed.

Lemma digitsAux_allDigits (fuel : nat) (n : Z) :
  Js.allDigits (Js.digitsAux fuel n "") = true.
Proof.
  revert n. induction fuel as [| fuel IH]; intros n;
    cbn [Js.digitsAux]; [reflexivity |].
  assert (Hd : Js.isDigit (Js.digitChar (n mod 10)) = true)
    by (apply isDigit_digitChar, Z.mod_pos_bound; lia).
  destruct (n / 10 =? 0).
  - cbn [Js.allDigits]. rewrite Hd. reflexivity.
  - rewrite digitsAux_acc, allDigits_app, IH. cbn [Js.allDigits]. rewrite Hd. reflexivity.
Qed.

(** A number below [10 ^ k] prints in at most [k] digits. *)
Lemma digitsAux_length_le (fuel k : nat) (n : Z) :
  (1 <= k)%nat -> 0 <= n < 10 ^ Z.of_nat k ->
  (String.length (Js.digitsAux fuel n "") <= k)%nat.
Proof.
  revert k n. induction fuel as [| fuel IH]; intros k n Hk Hn;
    cbn [Js.digitsAux String.length]; [lia |].
  destruct (Z.eqb_spec (n / 10) 0) as [Hz | Hz]; cbn [String.length]; [lia |].
  rewrite digitsAux_acc, length_append. cbn [String.length].
  destruct k as [| [| k]]; [lia | |].
  - exfalso. apply Hz. apply Z.div_small. change (10 ^ Z.of_nat 1) with 10 in Hn. lia.
  - assert (Hlt : 0 <= n / 10 < 10 ^ Z.of_nat (S k)).
    { split; [apply Z.div_pos; lia |].
      apply Z.div_lt_upper_bound; [lia |].
      replace (Z.of_nat (S (S k))) with (1 + Z.of_nat (S k)) in Hn by lia.
      rewrite Z.pow_add_r in Hn by lia. lia. }
    specialize (IH (S k) (n / 10) ltac:(lia) Hlt). lia.
Qed.

(** A number from [10 ^ k] on prints in more than [k] digits, the fuel allowing. *)
Lemma digitsAux_length_ge (fuel k : nat) (n : Z) :
  (k < fuel)%nat -> 10 ^ Z.of_nat k <= n ->
  (S k <= String.length (Js.digitsAux fuel n ""))%nat.
Proof.
  revert k n. induction fuel as [| fuel IH]; intros k n Hk Hn; [lia |].
  cbn [Js.digitsAux].
  destruct k as [| k].
  - destruct (n / 10 =? 0); cbn [String.length]; [lia |].
    rewrite digitsAux_acc, length_append. cbn [String.length]. lia.
  - assert (Hge : 10 ^ Z.of_nat k <= n / 10).
    { apply Z.div_le_lower_bound; [lia |].
      replace (Z.of_nat (S k)) with (1 + Z.of_nat k) in Hn by lia.
      rewrite Z.pow_add_r in Hn by lia. lia. }
    assert (Hpos : 0 < 10 ^ Z.of_nat k) by (apply Z.pow_pos_nonneg; lia).
    destruct (Z.eqb_spec (n / 10) 0) as [Hz | Hz]; [lia |].
    rewrite digitsAux_acc, length_append. cbn [String.length].
    specialize (IH k (n / 10) ltac:(lia) Hge). lia.
Qed.

(** With fuel for every bit of [n], the digits read back as [n]. *)
Lemma parseDigits_digitsAux (fuel : nat) (n : Z) :
  0 <= n < 2 ^ Z.of_nat fuel -> Js.parseDigits (Js.digitsAux fuel n "") = n.
Proof.
  unfold Js.parseDigits.
  revert n. induction fuel as [| fuel IH]; intros n Hn;
    cbn [Js.digitsAux Js.parseDigitsFrom].
  - change (2 ^ Z.of_nat 0) with 1 in Hn. lia.
  - assert (Hm : 0 <= n mod 10 < 10) by (apply Z.mod_pos_bound; lia).
    destruct (Z.eqb_spec (n / 10) 0) as [Hz | Hz]; cbn [Js.parseDigitsFrom].
    + rewrite digitValue_digitChar by exact Hm.
      pose proof (Z.div_mod n 10 ltac:(lia)). lia.
    + rewrite digitsAux_acc, parseDigitsFrom_app. cbn [Js.parseDigitsFrom].
      assert (Hlt : 0 <= n / 10 < 2 ^ Z.of_nat fuel).
      { split; [apply Z.div_pos; lia |].
        apply Z.div_lt_upper_bound; [lia |].
        replace (Z.of_nat (S fuel)) with (1 + Z.of_nat fuel) in Hn by lia.
        rewrite Z.pow_add_r in Hn by lia. lia. }
      rewrite (IH _ Hlt), digitValue_digitChar by exact Hm.
      pose proof (Z.div_mod n 10 ltac:(lia)). lia.
Qed.

Lemma decimalDigits_fuel (n : Z) :
  0 <= n -> n < 2 ^ Z.of_nat (S (Z.to_nat (Z.log2 n))).
Proof.
  intros Hn.
  replace (Z.of_nat (S (Z.to_nat (Z.log2 n)))) with (Z.succ (Z.log2 n))
    by (pose proof (Z.log2_nonneg n); lia).
  destruct (Z.eq_dec n 0) as [-> | Hne]; [reflexivity |].
  apply Z.log2_spec. lia.
Qed.

Lemma numberToString_nonneg (n : Z) :
  0 <= n -> Js.numberToString n = Js.decimalDigits n.
Proof.
  intros Hn. unfold Js.numberToString.
  destruct (Z.ltb_spec n 0); [lia | reflexivity].
Qed.

Lemma numberToString_allDigits (n : Z) :
  0 <= n -> Js.allDigits (Js.numberToString n) = true.
Proof. intros Hn. rewrite numberToString_nonneg by exact Hn. apply digitsAux_allDigits. Qed.

Lemma parseDigits_numberToString (n : Z) :
  0 <= n -> Js.parseDigits (Js.numberToString n) = n.
Proof.
  intros Hn. rewrite numberToString_nonneg by exact Hn.
  apply parseDigits_digitsAux. split; [exact Hn | apply decimalDigits_fuel, Hn].
Qed.

Lemma numberToString_length_le (k : nat) (n : Z) :
  (1 <= k)%nat -> 0 <= n < 10 ^ Z.of_nat k ->
  (String.length (Js.numberToString n) <= k)%nat.
Proof.
  intros Hk Hn. rewrite numberToString_nonneg by lia.
  apply digitsAux_length_le; assumption.
Qed.

Lemma numberToString_length_ge (k : nat) (n : Z) :
  10 ^ Z.of_nat k <= n -> (S k <= String.length (Js.numberToString n))%nat.
Proof.
  intros Hn.
  assert (Hpos : 0 < 10 ^ Z.of_nat k) by (apply Z.pow_pos_nonneg; lia).
  rewrite numberToString_nonneg by lia.
  apply digitsAux_length_ge; [| exact Hn].
  assert (Hlog : Z.of_nat k <= Z.log2 n).
  { apply Z.log2_le_pow2; [lia |].
    transitivity (10 ^ Z.of_nat k); [| exact Hn].
    apply Z.pow_le_mono_l. lia. }
  lia.
Qed.

(** A four-digit year prints in four digits. *)
Lemma numberToString_year (y : Z) :
  1000 <= y <= 9999 -> String.length (Js.numberToString y) = 4%nat.
Proof.
  intros Hy.
  pose proof (numberToString_length_le 4 y ltac:(lia)
                ltac:(change (10 ^ Z.of_nat 4) with 10000; lia)).
  pose proof (numberToString_length_ge 3 y
                ltac:(change (10 ^ Z.of_nat 3) with 1000; lia)).
  lia.
Qed.



Lemma filler_zero_succ (k : nat) :
  Js.filler (S k) "0" "" = String "0" (Js.filler k "0" "").
Proof. reflexivity. Qed.

Lemma filler_zero_length (k : nat) : String.length (Js.filler k "0" "") = k.
Proof.
  induction k as [| k IH]; [reflexivity |].
  rewrite filler_zero_succ. cbn [String.length]. rewrite IH. reflexivity.
Qed.

Lemma filler_zero_allDigits (k : nat) : Js.allDigits (Js.filler k "0" "") = true.
Proof.
  induction k as [| k IH]; [reflexivity |].
  rewrite filler_zero_succ. cbn [Js.allDigits]. rewrite IH. reflexivity.
Qed.

Lemma filler_zero_parse (k : nat) : Js.parseDigitsFrom 0 (Js.filler k "0" "") = 0.
Proof.
  induction k as [| k IH]; [reflexivity |].
  rewrite filler_zero_succ. cbn [Js.parseDigitsFrom]. exact IH.
Qed.

(** Padding with zeros up to [n] gives exactly [n] characters, keeps a string
    of digits one, and keeps its value. *)
Lemma padStart_zero_length (s : string) (n : nat) :
  (String.length s <= n)%nat -> String.length (Js.padStart s n "0") = n.
Proof.
  intros Hs. unfold Js.padStart.
  destruct (Nat.leb_spec n (String.length s)); [lia |].
  rewrite length_append, filler_zero_length. lia.
Qed.

Lemma padStart_zero_allDigits (s : string) (n : nat) :
  Js.allDigits s = true -> Js.allDigits (Js.padStart s n "0") = true.
Proof.
  intros Hs. unfold Js.padStart.
  destruct (n <=? String.length s)%nat; [exact Hs |].
  rewrite allDigits_app, filler_zero_allDigits, Hs. reflexivity.
Qed.

Lemma padStart_zero_parse (s : string) (n : nat) :
  Js.parseDigits (Js.padStart s n "0") = Js.parseDigits s.
Proof.
  unfold Js.padStart, Js.parseDigits.
  destruct (n <=? String.length s)%nat; [reflexivity |].
  rewrite parseDigitsFrom_app, filler_zero_parse. reflexivity.
Qed.

End DecimalFacts.

Example numberToString_year_2025 : Js.numberToString 2025 = "2025".
Proof. reflexivity. Qed.

Example numberToString_negative : Js.numberToString (-7) = "-7".
Proof. reflexivity. Qed.

Example padStart_short : Js.padStart (Js.numberToString 42) 6 "0" = "000042".
Proof. reflexivity. Qed.

Example padStart_long : Js.padStart "1234567" 6 "0" = "1234567".
Proof. reflexivity. Qed.

Example padStart_two_characters : Js.padStart "7" 6 "ab" = "ababa7".
Proof. reflexivity. Qed.

(** ** Reference numbers *)

Section ReferenceFacts.

Lemma string_length_4 (s : string) :
  String.length s = 4%nat ->
  exists a b c d, s = String a (String b (String c (String d ""))).
Proof.
  destruct s as [| a [| b [| c [| d [| e s]]]]]; try discriminate.
  intros _. eauto.
Qed.

Lemma string_length_6 (s : string) :
  String.length s = 6%nat ->
  exists a b c d e f,
    s = String a (String b (String c (String d (String e (String f ""))))).
Proof.
  destruct s as [| a [| b [| c [| d [| e [| f [| g s]]]]]]]; try discriminate.
  intros _. do 6 eexists. reflexivity.
Qed.

(** A string ["SM-" ++ y ++ "-" ++ d] with four digits [y] and six digits
    [d] is well formed, and its fields read back as [y] and [d]. *)
Lemma reference_shape (y d : string) :
  String.length y = 4%nat -> Js.allDigits y = true ->
  String.length d = 6%nat -> Js.allDigits d = true ->
  let s := ("SM-" ++ y ++ "-" ++ d)%string in
  Reference.wellFormed s = true
  /\ Reference.year s = Js.parseDigits y
  /\ Reference.serial s = Js.parseDigits d.
Proof.
  intros Hy Dy Hd Dd.
  destruct (string_length_4 y Hy) as (y1 & y2 & y3 & y4 & ->).
  destruct (string_length_6 d Hd) as (d1 & d2 & d3 & d4 & d5 & d6 & ->).
  cbv zeta. unfold Reference.wellFormed, Reference.year, Reference.serial.
  change (("SM-" ++ String y1 (String y2 (String y3 (String y4 ""))) ++ "-"
           ++ String d1 (String d2 (String d3 (String d4 (String d5 (String d6 ""))))))%string)
    with (String "S" (String "M" (String "-" (String y1 (String y2 (String y3
           (String y4 (String "-" (String d1 (String d2 (String d3 (String d4
           (String d5 (String d6 "")))))))))))))).
  cbn [substring String.length Nat.eqb].
  rewrite Dy, Dd. repeat split; reflexivity.
Qed.

(** Rounding to the nearest moves [n / 2 ^ s] to one of the two integers
    around it, and by at most half a unit. *)
Lemma roundHalfEven_near (n s : Z) :
  0 <= n -> 1 <= s ->
  n / 2 ^ s <= Double.roundHalfEven n s <= n / 2 ^ s + 1
  /\ Double.roundHalfEven n s * 2 ^ s <= n + 2 ^ (s - 1).
Proof.
  intros Hn Hs. unfold Double.roundHalfEven.
  assert (Hpow : 2 ^ s = 2 * 2 ^ (s - 1)).
  { replace s with (Z.succ (s - 1)) at 1 by lia. apply Z.pow_succ_r. lia. }
  assert (Hhalf : 0 < 2 ^ (s - 1)) by (apply Z.pow_pos_nonneg; lia).
  pose proof (Z.div_mod n (2 ^ s) ltac:(lia)) as Hdm.
  pose proof (Z.mod_pos_bound n (2 ^ s) ltac:(lia)) as Hr.
  set (q := n / 2 ^ s) in *. set (r := n mod 2 ^ s) in *.
  set (A := 2 ^ s) in *. set (h := 2 ^ (s - 1)) in *.
  destruct (Z.ltb_spec r h); [split; nia |].
  destruct (Z.ltb_spec h r); [split; nia |].
  destruct (Z.even q); split; nia.
Qed.

(** A double below 1 is zero or has a negative exponent. *)
Lemma double_below_one (u : Double.t) :
  Double.wellFormed u -> (Double.toQ u < 1)%Q ->
  Double.mantissa u = 0
  \/ Double.exponent u < 0
     /\ Double.mantissa u < 2 ^ (- Double.exponent u).
Proof.
  destruct u as [m e]. unfold Double.wellFormed, Double.toQ.
  cbn [Double.mantissa Double.exponent]. intros [[Hm0 Hm] He].
  destruct (Z.leb_spec 0 e) as [Hpos | Hneg].
  - intros Hlt. left.
    assert (Hlt' : m * 2 ^ e < 1).
    { rewrite Zlt_Qlt. exact Hlt. }
    assert (0 < 2 ^ e) by (apply Z.pow_pos_nonneg; lia). nia.
  - intros Hlt. right. split; [exact Hneg |].
    assert (Hp : 0 < 2 ^ (- e)) by (apply Z.pow_pos_nonneg; lia).
    unfold Qlt in Hlt. cbn [Qnum Qden] in Hlt.
    rewrite Z2Pos.id in Hlt by exact Hp. lia.
Qed.

(** The floor of the exact product, for a negative exponent. *)
Lemma exact_floor (m e : Z) :
  e < 0 ->
  Qfloor (Double.toQ (Double.mk m e) * 999999) = (m * 999999) / 2 ^ (- e).
Proof.
  intros Hneg. unfold Double.toQ. cbn [Double.mantissa Double.exponent].
  destruct (Z.leb_spec 0 e); [lia |].
  assert (Hp : 0 < 2 ^ (- e)) by (apply Z.pow_pos_nonneg; lia).
  unfold Qfloor, Qmult, inject_Z. cbn [Qnum Qden].
  rewrite Pos.mul_1_r, Z2Pos.id by exact Hp. reflexivity.
Qed.

(** [Math.floor(Math.random() * 999999)], the product rounded as a double,
    for [Math.random()] in [[0, 1)]: a number in [[0, 999999)], the floor of
    the exact product or the integer above it. *)
Lemma randomComponent_draw (u : Double.t) :
  Double.wellFormed u -> (Double.toQ u < 1)%Q ->
  0 <= MemStorage.randomComponent u < 999999
  /\ Qfloor (Double.toQ u * 999999) <= MemStorage.randomComponent u
     <= Qfloor (Double.toQ u * 999999) + 1.
Proof.
  intros Hwf Hlt.
  destruct (double_below_one u Hwf Hlt) as [Hzero | [Hneg Hmk]];
    destruct u as [m e]; destruct Hwf as [[Hm0 Hm] He];
    cbn [Double.mantissa Double.exponent] in *;
    unfold MemStorage.randomComponent, Double.mul, Double.ofZ, Double.round;
    cbn [Double.mantissa Double.exponent]; rewrite Z.add_0_r.
  - subst m. rewrite Z.mul_0_l. change (Z.log2 0) with 0.
    destruct (Z.leb_spec (Z.max (0 - 52) (-1074 - e)) 0); [| lia].
    assert (Hfloor : Double.floor (Double.mk 0 e) = 0).
    { unfold Double.floor. cbn [Double.mantissa Double.exponent].
      destruct (0 <=? e); [apply Z.mul_0_l | apply Zdiv_0_l]. }
    assert (Hexact : Qfloor (Double.toQ (Double.mk 0 e) * 999999) = 0).
    { unfold Double.toQ. cbn [Double.mantissa Double.exponent].
      destruct (0 <=? e); [rewrite Z.mul_0_l |]; reflexivity. }
    rewrite Hfloor, Hexact. lia.
  - rewrite (exact_floor m e Hneg).
    set (k := - e) in *. set (M := m * 999999).
    assert (HK : 0 < 2 ^ k) by (apply Z.pow_pos_nonneg; lia).
    assert (HM0 : 0 <= M) by (unfold M; lia).
    assert (HMk : M <= 999999 * 2 ^ k - 999999) by (unfold M; nia).
    destruct (Z.leb_spec (Z.max (Z.log2 M - 52) (-1074 - e)) 0) as [Hs | Hs].
    + unfold Double.floor. cbn [Double.mantissa Double.exponent].
      destruct (Z.leb_spec 0 e); [lia |]. fold k.
      assert (0 <= M / 2 ^ k) by (apply Z.div_pos; lia).
      assert (M / 2 ^ k < 999999) by (apply Z.div_lt_upper_bound; lia).
      lia.
    + assert (Hs' : Z.max (Z.log2 M - 52) (-1074 - e) = Z.log2 M - 52) by lia.
      rewrite Hs' in *. set (s := Z.log2 M - 52) in *.
      assert (HMpos : 0 < M).
      { destruct (Z.lt_trichotomy 0 M) as [H | H]; [exact H |].
        assert (Z.log2 M = 0) by (apply Z.log2_nonpos; lia). lia. }
      assert (Hs20 : s <= 20).
      { assert (Z.log2 M < 73); [| lia].
        apply Z.log2_lt_pow2; [exact HMpos |].
        change (2 ^ 73) with (2 ^ 53 * 1048576). unfold M. nia. }
      assert (Hsk : s < k).
      { assert (Z.log2 M < 20 + k); [| lia].
        apply Z.log2_lt_pow2; [exact HMpos |].
        rewrite Z.pow_add_r by lia. change (2 ^ 20) with 1048576. lia. }
      unfold Double.floor. cbn [Double.mantissa Double.exponent].
      destruct (Z.leb_spec 0 (e + s)); [lia |].
      replace (- (e + s)) with (k - s) by lia.
      destruct (roundHalfEven_near M s HM0 ltac:(lia)) as [[Hlo Hhi] Herr].
      set (n := Double.roundHalfEven M s) in *.
      assert (HA : 0 < 2 ^ s) by (apply Z.pow_pos_nonneg; lia).
      assert (HB : 0 < 2 ^ (k - s)) by (apply Z.pow_pos_nonneg; lia).
      assert (HAB : 2 ^ k = 2 ^ s * 2 ^ (k - s)).
      { rewrite <- Z.pow_add_r by lia. f_equal. lia. }
      assert (Hhalf : 2 ^ (s - 1) <= 524288).
      { change 524288 with (2 ^ 19). apply Z.pow_le_mono_r; lia. }
      assert (HF : M / 2 ^ k = M / 2 ^ s / 2 ^ (k - s)).
      { rewrite HAB. symmetry. apply Z.div_div; lia. }
      rewrite HF. set (q := M / 2 ^ s) in *.
      assert (Hq0 : 0 <= q) by (apply Z.div_pos; lia).
      assert (Hfl : q / 2 ^ (k - s) <= n / 2 ^ (k - s)) by (apply Z.div_le_mono; lia).
      assert (Hfu : n / 2 ^ (k - s) <= q / 2 ^ (k - s) + 1).
      { transitivity ((q + 1 * 2 ^ (k - s)) / 2 ^ (k - s)).
        - apply Z.div_le_mono; lia.
        - rewrite Z.div_add by lia. lia. }
      assert (Hn : n < 2 ^ (k - s) * 999999) by nia.
      assert (0 <= n / 2 ^ (k - s)) by (apply Z.div_pos; lia).
      assert (n / 2 ^ (k - s) < 999999) by (apply Z.div_lt_upper_bound; lia).
      lia.
Qed.

End ReferenceFacts.

(** ** The map of bookings *)

Section MapFacts.
Context {V : Type}.
Implicit Types (m : list (string * V)) (k : string) (v : V).

Lemma mapGet_mapSet_eq m k v : Js.mapGet (Js.mapSet m k v) k = Some v.
Proof.
  induction m as [| [k' v'] m IH]; cbn [Js.mapSet Js.mapGet].
  - rewrite String.eqb_refl. reflexivity.
  - destruct (String.eqb_spec k' k) as [-> | Hne]; cbn [Js.mapGet].
    + rewrite String.eqb_refl. reflexivity.
    + destruct (String.eqb_spec k' k); [contradiction | exact IH].
Qed.

Lemma mapGet_mapSet_ne m k k' v :
  k' <> k -> Js.mapGet (Js.mapSet m k v) k' = Js.mapGet m k'.
Proof.
  intros Hne. induction m as [| [k0 v0] m IH]; cbn [Js.mapSet Js.mapGet].
  - destruct (String.eqb_spec k k'); [congruence | reflexivity].
  - destruct (String.eqb_spec k0 k) as [-> | Hk]; cbn [Js.mapGet].
    + destruct (String.eqb_spec k k'); [congruence | reflexivity].
    + destruct (String.eqb_spec k0 k'); [reflexivity | exact IH].
Qed.

(** Writing an existing key moves no entry. *)
Lemma mapKeys_mapSet_present m k v v0 :
  Js.mapGet m k = Some v0 -> Js.mapKeys (Js.mapSet m k v) = Js.mapKeys m.
Proof.
  unfold Js.mapKeys.
  induction m as [| [k' v'] m IH]; cbn [Js.mapSet Js.mapGet]; [discriminate |].
  destruct (String.eqb_spec k' k) as [-> | Hk]; intros Hget; cbn [map fst].
  - reflexivity.
  - rewrite (IH Hget). reflexivity.
Qed.

End MapFacts.

(** ** The store: [createBooking] and [updateBookingPaymentStatus] *)

Section StoreFacts.

Lemma getBooking_createBooking this insertBooking env :
  MemStorage.getBooking (fst (MemStorage.createBooking this insertBooking env))
    (Env.randomUUID env)
  = Some (snd (MemStorage.createBooking this insertBooking env)).
Proof. apply mapGet_mapSet_eq. Qed.

Lemma getBooking_createBooking_other this insertBooking env id :
  id <> Env.randomUUID env ->
  MemStorage.getBooking (fst (MemStorage.createBooking this insertBooking env)) id
  = MemStorage.getBooking this id.
Proof. intros Hne. apply mapGet_mapSet_ne, Hne. Qed.

Lemma referenceNumber_createBooking this insertBooking env :
  Booking.referenceNumber (snd (MemStorage.createBooking this insertBooking env))
  = MemStorage.makeReferenceNumber (Env.getFullYear env) (Env.mathRandom env).
Proof. reflexivity. Qed.

(** What [updateBookingPaymentStatus] does when the booking is missing. *)
Lemma update_missing this id status paymentIntentId :
  MemStorage.getBooking this id = None ->
  MemStorage.updateBookingPaymentStatus this id status paymentIntentId = (this, None).
Proof.
  unfold MemStorage.getBooking, MemStorage.updateBookingPaymentStatus.
  intros ->. reflexivity.
Qed.

(** ... and when it is there. *)
Lemma update_present this id status paymentIntentId b :
  MemStorage.getBooking this id = Some b ->
  MemStorage.updateBookingPaymentStatus this id status paymentIntentId
  = (MemStorage.mk (MemStorage.users this) (MemStorage.experiences this)
       (Js.mapSet (MemStorage.bookings this) id
          (withPayment b status
             (Js.orElse paymentIntentId (Booking.stripePaymentIntentId b)))),
     Some (withPayment b status
             (Js.orElse paymentIntentId (Booking.stripePaymentIntentId b)))).
Proof.
  unfold MemStorage.getBooking, MemStorage.updateBookingPaymentStatus.
  intros ->. reflexivity.
Qed.

Lemma agreeExceptPayment_withPayment b status intent :
  agreeExceptPayment b (withPayment b status intent).
Proof. unfold agreeExceptPayment. repeat split. Qed.

Lemma agreeExceptPayment_refl b : agreeExceptPayment b b.
Proof. unfold agreeExceptPayment. repeat split. Qed.

Lemma agreeExceptPayment_trans b1 b2 b3 :
  agreeExceptPayment b1 b2 -> agreeExceptPayment b2 b3 -> agreeExceptPayment b1 b3.
Proof.
  unfold agreeExceptPayment. intros H12 H23.
  repeat match goal with H : _ /\ _ |- _ => destruct H end.
  repeat split; congruence.
Qed.

Lemma orElse_nonempty p prior : p <> "" -> Js.orElse (Some p) prior = Some p.
Proof.
  intros Hp. unfold Js.orElse, Js.truthyString.
  destruct (String.eqb_spec p ""); [contradiction | reflexivity].
Qed.

End StoreFacts.

(** ** Claims about the store *)

(** C1.  [createBooking] returns a booking and stores it under its
    identifier, the one [randomUUID] gave.  With [Math.random()] a double
    in [[0, 1)] and a four-digit year, its reference number matches
    [SM-<4 digits>-<6 digits>]: the first field reads back as the year, the
    second as [Math.floor(Math.random() * 999999)], the product rounded as
    a double; this number is in [[0, 999999)] and is the floor of the exact
    product or the integer above it.  Its payment status is ["pending"],
    its payment-intent id is null, and its [specialRequests] is null when
    the payload has none. *)
Theorem createBooking_issues_pending_booking
  (this : MemStorage.t) (insertBooking : InsertBooking.t) (env : Env.t) :
  Double.wellFormed (Env.mathRandom env) -> (Double.toQ (Env.mathRandom env) < 1)%Q ->
  1000 <= Env.getFullYear env <= 9999 ->
  let result := MemStorage.createBooking this insertBooking env in
  let booking := snd result in
  MemStorage.getBooking (fst result) (Booking.id booking) = Some booking
  /\ Booking.id booking = Env.randomUUID env
  /\ Reference.wellFormed (Booking.referenceNumber booking) = true
  /\ Reference.year (Booking.referenceNumber booking) = Env.getFullYear env
  /\ Reference.serial (Booking.referenceNumber booking)
     = MemStorage.randomComponent (Env.mathRandom env)
  /\ 0 <= Reference.serial (Booking.referenceNumber booking) < 999999
  /\ Qfloor (Double.toQ (Env.mathRandom env) * 999999)
     <= Reference.serial (Booking.referenceNumber booking)
     <= Qfloor (Double.toQ (Env.mathRandom env) * 999999) + 1
  /\ Booking.paymentStatus booking = Some "pending"
  /\ Booking.stripePaymentIntentId booking = None
  /\ (InsertBooking.specialRequests insertBooking = Js.Undefined ->
      Booking.specialRequests booking = None).
Proof.
  intros Hlo Hhi Hyear result booking.
  pose proof (randomComponent_draw _ Hlo Hhi) as [Hrange Hexact].
  set (n := MemStorage.randomComponent (Env.mathRandom env)) in *.
  set (y := Js.numberToString (Env.getFullYear env)).
  set (d := Js.padStart (Js.numberToString n) 6 "0").
  assert (Href : Booking.referenceNumber booking = ("SM-" ++ y ++ "-" ++ d)%string)
    by reflexivity.
  assert (Hshape := reference_shape y d).
  cbv zeta in Hshape. rewrite <- Href in Hshape.
  destruct Hshape as (Hwf & Hy & Hd).
  - apply numberToString_year, Hyear.
  - apply numberToString_allDigits. lia.
  - apply padStart_zero_length, (numberToString_length_le 6 n); [lia |].
    change (10 ^ Z.of_nat 6) with 1000000. lia.
  - apply padStart_zero_allDigits, numberToString_allDigits. lia.
  - assert (Hserial : Reference.serial (Booking.referenceNumber booking) = n).
    { rewrite Hd. unfold d.
      rewrite padStart_zero_parse. apply parseDigits_numberToString. lia. }
    split; [apply getBooking_createBooking |].
    split; [reflexivity |].
    split; [exact Hwf |].
    split; [rewrite Hy; apply parseDigits_numberToString; lia |].
    split; [exact Hserial |].
    split; [rewrite Hserial; exact Hrange |].
    split; [rewrite Hserial; exact Hexact |].
    split; [reflexivity |].
    split; [reflexivity |].
    intros Hsr. subst booking result. cbn [snd MemStorage.createBooking Booking.specialRequests].
    rewrite Hsr. reflexivity.
Qed.

Lemma createBooking_issues_pending_booking_witness :
  let result := MemStorage.createBooking MemStorage.new Sample.insertBooking Sample.env1 in
  let booking := snd result in
  MemStorage.getBooking (fst result) (Booking.id booking) = Some booking
  /\ Booking.id booking = "6f1c2a9e-0001"
  /\ Reference.wellFormed (Booking.referenceNumber booking) = true
  /\ Reference.year (Booking.referenceNumber booking) = 2025
  /\ Reference.serial (Booking.referenceNumber booking)
     = MemStorage.randomComponent Sample.random42
  /\ 0 <= Reference.serial (Booking.referenceNumber booking) < 999999
  /\ Qfloor (Double.toQ Sample.random42 * 999999)
     <= Reference.serial (Booking.referenceNumber booking)
     <= Qfloor (Double.toQ Sample.random42 * 999999) + 1
  /\ Booking.paymentStatus booking = Some "pending"
  /\ Booking.stripePaymentIntentId booking = None
  /\ (InsertBooking.specialRequests Sample.insertBooking = Js.Undefined ->
      Booking.specialRequests booking = None).
Proof.
  apply (createBooking_issues_pending_booking
           MemStorage.new Sample.insertBooking Sample.env1).
  - vm_compute. repeat split; discriminate.
  - vm_compute. reflexivity.
  - vm_compute. split; discriminate.
Defined.

Example createBooking_sample_reference :
  Booking.referenceNumber
    (snd (MemStorage.createBooking MemStorage.new Sample.insertBooking Sample.env1))
  = "SM-2025-000042".
Proof. vm_compute. reflexivity. Qed.

(** The double product is rounded before the floor: at the double nearest
    to 42/999999 the exact product is below 42 and the draw is 42. *)
Example randomComponent_rounds_up :
  MemStorage.randomComponent Sample.random42 = 42
  /\ Qfloor (Double.toQ Sample.random42 * 999999) = 41.
Proof. split; vm_compute; reflexivity. Qed.

(** At [Math.random() = 0.6849406849406849] the draw is 684940, the exact
    floor 684939. *)
Example randomComponent_at_0_6849 :
  MemStorage.randomComponent (Double.mk 6169397226939522 (-53)) = 684940
  /\ Qfloor (Double.toQ (Double.mk 6169397226939522 (-53)) * 999999) = 684939.
Proof. split; vm_compute; reflexivity. Qed.

(** The largest double below 1 draws 999998. *)
Example randomComponent_largest :
  MemStorage.randomComponent (Double.mk 9007199254740991 (-53)) = 999998.
Proof. vm_compute. reflexivity. Qed.

(** C3.  The reference number is computed from the year and the random
    draw alone, whatever the store and the payload.  So two creations with
    distinct identifiers, the same year and the same draw leave two stored
    bookings with one reference number: nothing checks the bookings
    already there. *)
Theorem createBooking_reference_ignores_store
  (this : MemStorage.t) (p1 p2 : InsertBooking.t) (e1 e2 : Env.t) :
  Env.getFullYear e1 = Env.getFullYear e2 ->
  MemStorage.randomComponent (Env.mathRandom e1)
  = MemStorage.randomComponent (Env.mathRandom e2) ->
  Env.randomUUID e1 <> Env.randomUUID e2 ->
  let r1 := MemStorage.createBooking this p1 e1 in
  let r2 := MemStorage.createBooking (fst r1) p2 e2 in
  (forall (other : MemStorage.t) (p : InsertBooking.t),
      Booking.referenceNumber (snd (MemStorage.createBooking other p e2))
      = Booking.referenceNumber (snd r1))
  /\ MemStorage.getBooking (fst r2) (Env.randomUUID e1) = Some (snd r1)
  /\ MemStorage.getBooking (fst r2) (Env.randomUUID e2) = Some (snd r2)
  /\ Booking.id (snd r1) <> Booking.id (snd r2)
  /\ Booking.referenceNumber (snd r1) = Booking.referenceNumber (snd r2).
Proof.
  intros Hyear Hdraw Hid r1 r2.
  assert (Href : forall other p,
             Booking.referenceNumber (snd (MemStorage.createBooking other p e2))
             = Booking.referenceNumber (snd r1)).
  { intros other p. subst r1. rewrite !referenceNumber_createBooking.
    unfold MemStorage.makeReferenceNumber. rewrite Hyear, Hdraw. reflexivity. }
  split; [exact Href |].
  split.
  { subst r2. rewrite getBooking_createBooking_other by exact Hid.
    apply getBooking_createBooking. }
  split; [apply getBooking_createBooking |].
  split; [exact Hid |].
  symmetry. apply Href.
Qed.

Lemma createBooking_reference_ignores_store_witness :
  let r1 := MemStorage.createBooking MemStorage.new Sample.insertBooking Sample.env1 in
  let r2 := MemStorage.createBooking (fst r1) Sample.insertBooking Sample.env2 in
  (forall (other : MemStorage.t) (p : InsertBooking.t),
      Booking.referenceNumber (snd (MemStorage.createBooking other p Sample.env2))
      = Booking.referenceNumber (snd r1))
  /\ MemStorage.getBooking (fst r2) "6f1c2a9e-0001" = Some (snd r1)
  /\ MemStorage.getBooking (fst r2) "6f1c2a9e-0002" = Some (snd r2)
  /\ Booking.id (snd r1) <> Booking.id (snd r2)
  /\ Booking.referenceNumber (snd r1) = Booking.referenceNumber (snd r2).
Proof.
  apply (createBooking_reference_ignores_store
           MemStorage.new Sample.insertBooking Sample.insertBooking
           Sample.env1 Sample.env2).
  - reflexivity.
  - reflexivity.
  - vm_compute. discriminate.
Defined.

(** C2, as the code has it.  [updateBookingPaymentStatus] on an identifier
    with no booking returns nothing and leaves the store as it is.  On an
    existing booking it returns a record with the status given, whatever
    the one before; with the payment-intent id given when that is a
    non-empty string, and the one before when none is given or an empty
    string is; and that record is then the one stored under the
    identifier. *)
Theorem updateBookingPaymentStatus_result
  (this : MemStorage.t) (id status : string) (paymentIntentId : option string) :
  let result := MemStorage.updateBookingPaymentStatus this id status paymentIntentId in
  (MemStorage.getBooking this id = None -> result = (this, None))
  /\ (forall b : Booking.t,
        MemStorage.getBooking this id = Some b ->
        exists b' : Booking.t,
          snd result = Some b'
          /\ Booking.paymentStatus b' = Some status
          /\ (forall p : string,
                paymentIntentId = Some p -> p <> "" ->
                Booking.stripePaymentIntentId b' = Some p)
          /\ (paymentIntentId = None \/ paymentIntentId = Some "" ->
              Booking.stripePaymentIntentId b' = Booking.stripePaymentIntentId b)
          /\ MemStorage.getBooking (fst result) id = Some b').
Proof.
  intros result. split.
  - apply update_missing.
  - intros b Hb. subst result. rewrite (update_present _ _ _ _ _ Hb).
    eexists. split; [reflexivity |].
    split; [reflexivity |].
    split; [| split].
    + intros p -> Hp. cbn [withPayment Booking.stripePaymentIntentId].
      apply orElse_nonempty, Hp.
    + intros [-> | ->]; reflexivity.
    + apply mapGet_mapSet_eq.
Qed.

Lemma updateBookingPaymentStatus_result_witness :
  MemStorage.updateBookingPaymentStatus Sample.store1 "no-such-id" "completed" None
  = (Sample.store1, None)
  /\ exists b' : Booking.t,
       snd (MemStorage.updateBookingPaymentStatus
              Sample.store1 "6f1c2a9e-0001" "failed" (Some "pi_7")) = Some b'
       /\ Booking.paymentStatus b' = Some "failed"
       /\ Booking.stripePaymentIntentId b' = Some "pi_7".
Proof.
  split.
  - apply (updateBookingPaymentStatus_result Sample.store1 "no-such-id" "completed" None).
    reflexivity.
  - destruct (updateBookingPaymentStatus_result
                Sample.store1 "6f1c2a9e-0001" "failed" (Some "pi_7")) as [_ H].
    destruct (H _ eq_refl) as (b' & Hb' & Hst & Hsup & _).
    exists b'. split; [exact Hb' |]. split; [exact Hst |].
    apply Hsup; [reflexivity | discriminate].
Defined.

(** C2 as stated fails: an empty string is a supplied payment-intent id,
    and the record returned keeps the id it had. *)
Lemma updateBookingPaymentStatus_supplied_empty :
  exists b b' : Booking.t,
    MemStorage.getBooking Sample.store1' "6f1c2a9e-0001" = Some b
    /\ snd (MemStorage.updateBookingPaymentStatus
              Sample.store1' "6f1c2a9e-0001" "completed" (Some "")) = Some b'
    /\ Booking.stripePaymentIntentId b' = Some "pi_mock_1735725600500"
    /\ Booking.stripePaymentIntentId b' <> Some "".
Proof.
  do 2 eexists. split; [vm_compute; reflexivity |].
  split; [vm_compute; reflexivity |].
  split; [reflexivity | discriminate].
Qed.

(** C10.  On an existing booking, an empty string as payment-intent id does
    what no payment-intent id does: the call returns the same result, and
    the booking keeps the payment-intent id it had, whatever the status. *)
Theorem updateBookingPaymentStatus_empty_intent
  (this : MemStorage.t) (id status : string) (b : Booking.t) :
  MemStorage.getBooking this id = Some b ->
  MemStorage.updateBookingPaymentStatus this id status (Some "")
  = MemStorage.updateBookingPaymentStatus this id status None
  /\ exists b' : Booking.t,
       snd (MemStorage.updateBookingPaymentStatus this id status (Some "")) = Some b'
       /\ MemStorage.getBooking
            (fst (MemStorage.updateBookingPaymentStatus this id status (Some ""))) id
          = Some b'
       /\ Booking.stripePaymentIntentId b' = Booking.stripePaymentIntentId b
       /\ Booking.paymentStatus b' = Some status.
Proof.
  intros Hb. rewrite !(update_present _ _ _ _ _ Hb). split; [reflexivity |].
  eexists. split; [reflexivity |].
  split; [apply mapGet_mapSet_eq |].
  split; reflexivity.
Qed.

Lemma updateBookingPaymentStatus_empty_intent_witness :
  exists b : Booking.t,
    MemStorage.getBooking Sample.store1' "6f1c2a9e-0001" = Some b
    /\ Booking.stripePaymentIntentId b = Some "pi_mock_1735725600500"
    /\ exists b' : Booking.t,
         snd (MemStorage.updateBookingPaymentStatus
                Sample.store1' "6f1c2a9e-0001" "completed" (Some "")) = Some b'
         /\ Booking.stripePaymentIntentId b' = Booking.stripePaymentIntentId b.
Proof.
  eexists. split; [vm_compute; reflexivity |].
  split; [reflexivity |].
  destruct (updateBookingPaymentStatus_empty_intent
              Sample.store1' "6f1c2a9e-0001" "completed" _ eq_refl)
    as (_ & b' & Hb' & _ & Hkeep & _).
  exists b'. split; [exact Hb' | exact Hkeep].
Defined.

(** ** Lookup by reference after a creation *)

Section ReferenceLookup.

Variable b : Booking.t.

Let hasReference (x : Booking.t) : bool :=
  String.eqb (Booking.referenceNumber x) (Booking.referenceNumber b).

Lemma leads_find (m : list (string * Booking.t)) :
  leadsItsReference b m ->
  exists b' : Booking.t,
    find hasReference (Js.mapValues m) = Some b' /\ agreeExceptPayment b b'.
Proof.
  unfold Js.mapValues.
  induction m as [| [k v] m IH]; cbn [leadsItsReference map snd find]; [tauto |].
  destruct (String.eqb_spec k (Booking.id b)) as [Hk | Hk].
  - intros Hagree. exists v. split; [| exact Hagree].
    unfold hasReference.
    replace (Booking.referenceNumber v) with (Booking.referenceNumber b)
      by (symmetry; apply Hagree).
    rewrite String.eqb_refl. reflexivity.
  - intros [Href Hrest]. unfold hasReference at 1.
    destruct (String.eqb_spec (Booking.referenceNumber v) (Booking.referenceNumber b));
      [contradiction | apply IH, Hrest].
Qed.

(** Creation puts the booking in front of its reference when no stored
    booking has it. *)
Lemma leads_created (m : list (string * Booking.t)) :
  find hasReference (Js.mapValues m) = None ->
  leadsItsReference b (Js.mapSet m (Booking.id b) b).
Proof.
  unfold Js.mapValues.
  induction m as [| [k v] m IH]; cbn [map snd find Js.mapSet leadsItsReference].
  - intros _. rewrite String.eqb_refl. apply agreeExceptPayment_refl.
  - unfold hasReference at 1.
    destruct (String.eqb_spec (Booking.referenceNumber v) (Booking.referenceNumber b))
      as [Href | Href]; [discriminate |].
    intros Hnone.
    destruct (String.eqb_spec k (Booking.id b)) as [Hk | Hk];
      cbn [leadsItsReference].
    + rewrite String.eqb_refl. apply agreeExceptPayment_refl.
    + destruct (String.eqb_spec k (Booking.id b)); [contradiction |].
      split; [exact Href | apply IH, Hnone].
Qed.

(** A new entry under an unused key goes last. *)
Lemma leads_fresh (m : list (string * Booking.t)) (k : string) (v : Booking.t) :
  Js.mapGet m k = None ->
  leadsItsReference b m -> leadsItsReference b (Js.mapSet m k v).
Proof.
  induction m as [| [k0 v0] m IH]; cbn [Js.mapGet Js.mapSet leadsItsReference];
    [tauto |].
  destruct (String.eqb_spec k0 k) as [Hk | Hk]; [discriminate |].
  intros Hnone. cbn [leadsItsReference].
  destruct (String.eqb_spec k0 (Booking.id b)); [tauto |].
  intros [Href Hrest]. split; [exact Href | apply IH; assumption].
Qed.

(** A payment update of any stored booking keeps the booking in front. *)
Lemma leads_updated (m : list (string * Booking.t)) (k status : string)
  (intent : option string) (old : Booking.t) :
  Js.mapGet m k = Some old ->
  leadsItsReference b m ->
  leadsItsReference b (Js.mapSet m k (withPayment old status intent)).
Proof.
  induction m as [| [k0 v0] m IH]; cbn [Js.mapGet Js.mapSet leadsItsReference];
    [discriminate |].
  destruct (String.eqb_spec k0 k) as [Hk | Hk]; cbn [leadsItsReference].
  - intros [= ->]. subst k0.
    destruct (String.eqb_spec k (Booking.id b)).
    + intros Hagree. eapply agreeExceptPayment_trans; [exact Hagree |].
      apply agreeExceptPayment_withPayment.
    + intros [Href Hrest]. split; [exact Href | exact Hrest].
  - intros Hget.
    destruct (String.eqb_spec k0 (Booking.id b)); [tauto |].
    intros [Href Hrest]. split; [exact Href | apply IH; assumption].
Qed.

Lemma leads_applyOp (this : MemStorage.t) (op : BookingOp) :
  match op with
  | Create _ env => MemStorage.getBooking this (Env.randomUUID env) = None
  | Update _ _ _ => True
  end ->
  leadsItsReference b (MemStorage.bookings this) ->
  leadsItsReference b (MemStorage.bookings (applyOp this op)).
Proof.
  destruct op as [p env | id status intent]; cbn [applyOp].
  - intros Hfresh Hleads. apply leads_fresh; assumption.
  - intros _ Hleads.
    destruct (MemStorage.getBooking this id) as [old |] eqn:Hget.
    + rewrite (update_present _ _ _ _ _ Hget). apply leads_updated; assumption.
    + rewrite (update_missing _ _ _ _ Hget). exact Hleads.
Qed.

Lemma leads_applyOps (ops : list BookingOp) (this : MemStorage.t) :
  freshIds this ops ->
  leadsItsReference b (MemStorage.bookings this) ->
  leadsItsReference b (MemStorage.bookings (applyOps this ops)).
Proof.
  unfold applyOps. revert this.
  induction ops as [| op ops IH]; intros this; cbn [freshIds fold_left]; [tauto |].
  intros [Hop Hrest] Hleads. apply IH; [exact Hrest |].
  apply leads_applyOp; assumption.
Qed.

End ReferenceLookup.

(** C8, as the code has it.  On an existing booking,
    [updateBookingPaymentStatus] writes a record that differs from the old
    one at most in [paymentStatus] and [stripePaymentIntentId]; the booking
    under every other identifier, the order of the entries, the users and
    the experiences are as before.  So when no stored booking carries the
    reference number a creation issues, then after any later updates, and
    creations under unused identifiers, looking that reference up returns
    the record the creation returned, except possibly its two payment
    fields. *)
Theorem updateBookingPaymentStatus_frame :
  (forall (this : MemStorage.t) (id status : string)
          (paymentIntentId : option string) (b : Booking.t),
      MemStorage.getBooking this id = Some b ->
      let result :=
        MemStorage.updateBookingPaymentStatus this id status paymentIntentId in
      (exists b' : Booking.t,
          snd result = Some b'
          /\ MemStorage.getBooking (fst result) id = Some b'
          /\ agreeExceptPayment b b')
      /\ (forall id' : string,
            id' <> id ->
            MemStorage.getBooking (fst result) id' = MemStorage.getBooking this id')
      /\ Js.mapKeys (MemStorage.bookings (fst result))
         = Js.mapKeys (MemStorage.bookings this)
      /\ MemStorage.users (fst result) = MemStorage.users this
      /\ MemStorage.experiences (fst result) = MemStorage.experiences this)
  /\ (forall (this : MemStorage.t) (insertBooking : InsertBooking.t) (env : Env.t)
             (ops : list BookingOp),
        let created := MemStorage.createBooking this insertBooking env in
        MemStorage.getBookingByReference this (Booking.referenceNumber (snd created))
        = None ->
        freshIds (fst created) ops ->
        exists b' : Booking.t,
          MemStorage.getBookingByReference
            (applyOps (fst created) ops) (Booking.referenceNumber (snd created))
          = Some b'
          /\ agreeExceptPayment (snd created) b').
Proof.
  split.
  - intros this id status paymentIntentId b Hb result. subst result.
    rewrite (update_present _ _ _ _ _ Hb). cbn [fst snd].
    split.
    { eexists. split; [reflexivity |].
      split; [apply mapGet_mapSet_eq | apply agreeExceptPayment_withPayment]. }
    split.
    { intros id' Hne. apply mapGet_mapSet_ne, Hne. }
    split; [| split; reflexivity].
    cbn [MemStorage.bookings]. eapply mapKeys_mapSet_present. exact Hb.
  - intros this insertBooking env ops created Hunused Hfresh.
    apply leads_find. apply leads_applyOps; [exact Hfresh |].
    apply (leads_created (snd created)). exact Hunused.
Qed.

Lemma updateBookingPaymentStatus_frame_witness :
  (exists b' : Booking.t,
      snd (MemStorage.updateBookingPaymentStatus
             Sample.store2 "6f1c2a9e-0001" "completed" (Some "pi_9")) = Some b'
      /\ Booking.referenceNumber b' = "SM-2025-000042")
  /\ exists b' : Booking.t,
       MemStorage.getBookingByReference
         (applyOps Sample.store1
            [Update "6f1c2a9e-0001" "processing" (Some "pi_9");
             Create Sample.insertBooking Sample.env2;
             Update "6f1c2a9e-0002" "completed" None])
         "SM-2025-000042" = Some b'
       /\ Booking.id b' = "6f1c2a9e-0001".
Proof.
  destruct updateBookingPaymentStatus_frame as [Hframe Hlookup]. split.
  - destruct (Hframe Sample.store2 "6f1c2a9e-0001" "completed" (Some "pi_9") _ eq_refl)
      as ((b' & Hb' & _ & Hagree) & _).
    exists b'. split; [exact Hb' |]. apply Hagree.
  - destruct (Hlookup MemStorage.new Sample.insertBooking Sample.env1
                [Update "6f1c2a9e-0001" "processing" (Some "pi_9");
                 Create Sample.insertBooking Sample.env2;
                 Update "6f1c2a9e-0002" "completed" None])
      as (b' & Hb' & Hagree).
    + reflexivity.
    + cbn [freshIds]. repeat split.
    + exists b'. split; [exact Hb' |]. apply Hagree.
Defined.

(** C8 as stated fails: a second creation with the year and draw of the
    first is not the one its reference number finds. *)
Lemma getBookingByReference_finds_earlier_booking :
  let r1 := MemStorage.createBooking MemStorage.new Sample.insertBooking Sample.env1 in
  let r2 := MemStorage.createBooking (fst r1) Sample.insertBooking Sample.env2 in
  exists b' : Booking.t,
    MemStorage.getBookingByReference (fst r2) (Booking.referenceNumber (snd r2))
    = Some b'
    /\ Booking.id (snd r2) = "6f1c2a9e-0002"
    /\ Booking.id b' = "6f1c2a9e-0001"
    /\ ~ agreeExceptPayment (snd r2) b'.
Proof.
  cbv zeta. eexists. split; [vm_compute; reflexivity |].
  split; [reflexivity |]. split; [reflexivity |].
  intros [Hid _]. discriminate Hid.
Qed.

(** ** Validation *)

Section ZodFacts.

Variable checks : Q -> list (string * string).

Lemma insertBookingSchema_fields :
  Zod.insertBookingSchema
  = [ ("experienceId", Zod.mkField Zod.ZString false false);
      ("firstName", Zod.mkField Zod.ZString false false);
      ("lastName", Zod.mkField Zod.ZString false false);
      ("email", Zod.mkField Zod.ZString false false);
      ("phone", Zod.mkField Zod.ZString false false);
      ("checkinDate", Zod.mkField Zod.ZString false false);
      ("checkoutDate", Zod.mkField Zod.ZString false false);
      ("participants", Zod.mkField Zod.ZNumber false false);
      ("specialRequests", Zod.mkField Zod.ZString true true);
      ("totalAmount", Zod.mkField Zod.ZString false false) ].
Proof. vm_compute. reflexivity. Qed.

(** Every issue of a field has the key of that field as its path. *)
Lemma fieldIssues_path (f : Zod.FieldSchema) (k : string)
  (v : option Zod.JsonValue) (i : Zod.ZodIssue) :
  In i (Zod.fieldIssues checks f k v) -> Zod.path i = [k].
Proof.
  assert (Hbase : In i (Zod.baseIssues checks (Zod.base f) k v) -> Zod.path i = [k]).
  { unfold Zod.baseIssues.
    destruct (Zod.base f); destruct v as [[] |]; cbn [In];
      try (intros [<- | []]; reflexivity); try tauto.
    rewrite in_map_iff. intros (cm & <- & _). reflexivity. }
  unfold Zod.fieldIssues.
  destruct v as [[] |]; try exact Hbase.
  - destruct (Zod.nullable f); [intros [] | exact Hbase].
  - destruct (Zod.optional f); [intros [] | exact Hbase].
Qed.

(** The issues of an object are those of its fields, all of them. *)
Lemma objectIssues_in (shape : list (string * Zod.FieldSchema))
  (body : gmap string Zod.JsonValue) (i : Zod.ZodIssue) :
  In i (Zod.objectIssues checks shape body)
  <-> exists k f, In (k, f) shape /\ In i (Zod.fieldIssues checks f k (body !! k)).
Proof.
  unfold Zod.objectIssues. rewrite in_flat_map. split.
  - intros ([k f] & Hin & Hi). exists k, f. split; assumption.
  - intros (k & f & Hin & Hi). exists (k, f). split; assumption.
Qed.

Lemma parse_errors (body : gmap string Zod.JsonValue) (errors : list Zod.ZodIssue) :
  Zod.parse checks body = inr errors ->
  errors = Zod.objectIssues checks Zod.insertBookingSchema body.
Proof.
  unfold Zod.parse.
  destruct (Zod.objectIssues checks Zod.insertBookingSchema body);
    [discriminate | intros [= <-]; reflexivity].
Qed.

Lemma parse_rejects (body : gmap string Zod.JsonValue) (i : Zod.ZodIssue) :
  In i (Zod.objectIssues checks Zod.insertBookingSchema body) ->
  Zod.parse checks body
  = inr (Zod.objectIssues checks Zod.insertBookingSchema body).
Proof.
  unfold Zod.parse.
  destruct (Zod.objectIssues checks Zod.insertBookingSchema body);
    [intros [] | reflexivity].
Qed.

(** A string field fails on what is not a string, and on nothing else. *)
Lemma required_string_issues (k : string) (v : option Zod.JsonValue) :
  Zod.fieldIssues checks (Zod.mkField Zod.ZString false false) k v
  = if Zod.isString v then [] else [Zod.invalidType "string" v k].
Proof. destruct v as [[] |]; reflexivity. Qed.

End ZodFacts.

(** C4, as the code has it.  Validation does not stop at the first fault:
    a body with a failing field is answered 400 with the issues of every
    failing field of the insert schema, each under the key of its field,
    and nothing else; the store is left as it is.  A body whose [email] is
    missing or is not a string gets an [invalid_type] entry under [email],
    next to the entries of the other failing fields.  An [email] that is a
    string raises no entry, whatever its form: the schema of a text column
    is a plain string. *)
Theorem validation_reports_every_failing_field
  (checks : Q -> list (string * string))
  (storage : MemStorage.t) (env : Env.t) (body : gmap string Zod.JsonValue) :
  let issuesOf := fun k f => Zod.fieldIssues checks f k (body !! k) in
  let errors := Zod.objectIssues checks Zod.insertBookingSchema body in
  (errors <> [] ->
   Routes.postBookings checks storage env body
   = (storage, Routes.mkResponse 400 (Routes.ValidationError "Validation error" errors)))
  /\ (forall k f i,
        In (k, f) Zod.insertBookingSchema -> In i (issuesOf k f) ->
        In i errors /\ Zod.path i = [k])
  /\ (forall i,
        In i errors ->
        exists k f, In (k, f) Zod.insertBookingSchema /\ In i (issuesOf k f))
  /\ (Zod.isString (body !! "email") = false ->
      In (Zod.invalidType "string" (body !! "email") "email") errors)
  /\ (Zod.isString (body !! "email") = true ->
      forall i, In i errors -> Zod.path i <> ["email"]).
Proof.
  intros issuesOf errors.
  assert (Hemail : In ("email", Zod.mkField Zod.ZString false false)
                      Zod.insertBookingSchema)
    by (rewrite insertBookingSchema_fields; cbn [In]; tauto).
  split; [| split; [| split; [| split]]].
  - intros Hne. unfold Routes.postBookings.
    destruct errors as [| i rest] eqn:Herr; [congruence |].
    rewrite (parse_rejects checks body i) by (fold errors; rewrite Herr; left; reflexivity).
    fold errors. rewrite Herr. reflexivity.
  - intros k f i Hin Hi. split; [| eapply fieldIssues_path; exact Hi].
    apply objectIssues_in. exists k, f. split; assumption.
  - intros i Hi. apply objectIssues_in, Hi.
  - intros Hnot. apply objectIssues_in.
    exists "email", (Zod.mkField Zod.ZString false false).
    split; [exact Hemail |].
    rewrite required_string_issues, Hnot. left. reflexivity.
  - intros Hstr i Hi Hpath.
    apply objectIssues_in in Hi. destruct Hi as (k & f & Hin & Hi).
    rewrite (fieldIssues_path _ _ _ _ _ Hi) in Hpath.
    injection Hpath as ->.
    rewrite insertBookingSchema_fields in Hin. cbn [In] in Hin.
    repeat (destruct Hin as [Heq | Hin]; [try discriminate Heq |]).
    + inversion Heq; subst f.
      rewrite required_string_issues, Hstr in Hi. destruct Hi.
    + destruct Hin.
Qed.

Lemma validation_reports_every_failing_field_witness :
  Routes.postBookings Zod.int32Checks MemStorage.new Sample.env1 Sample.bodyThreeFaults
  = (MemStorage.new,
     Routes.mkResponse 400
       (Routes.ValidationError "Validation error"
          [ Zod.mkIssue "invalid_type" ["email"] "Required";
            Zod.mkIssue "invalid_type" ["phone"] "Expected string, received number";
            Zod.mkIssue "invalid_type" ["participants"] "Required" ])).
Proof.
  destruct (validation_reports_every_failing_field
              Zod.int32Checks MemStorage.new Sample.env1 Sample.bodyThreeFaults)
    as [Hreject _].
  apply Hreject. vm_compute. discriminate.
Defined.

(** C4 as stated fails: a body whose email has no [@] is accepted and the
    booking is created with it. *)
Lemma postBookings_accepts_malformed_email :
  String.index 0 "@" "not-an-email" = None
  /\ Sample.bodyMalformedEmail !! "email" = Some (Zod.JString "not-an-email")
  /\ Zod.objectIssues Zod.int32Checks Zod.insertBookingSchema Sample.bodyMalformedEmail
     = []
  /\ exists booking : Booking.t,
       snd (Routes.postBookings
              Zod.int32Checks MemStorage.new Sample.env1 Sample.bodyMalformedEmail)
       = Routes.mkResponse 201 (Routes.ABooking booking)
       /\ Booking.email booking = "not-an-email".
Proof.
  split; [reflexivity |]. split; [vm_compute; reflexivity |].
  split; [vm_compute; reflexivity |].
  eexists. split; [vm_compute; reflexivity | reflexivity].
Qed.

(** ** The payment routes *)

Section RouteFacts.

Lemma mockIntentId_nonempty (now : Z) :
  ("pi_mock_" ++ Js.numberToString now)%string <> "".
Proof. discriminate. Qed.

Lemma truthyString_true (s : string) : s <> "" -> Js.truthyString s = true.
Proof.
  intros Hs. unfold Js.truthyString.
  destruct (String.eqb_spec s ""); [contradiction | reflexivity].
Qed.

(** The guard [!amount || amount <= 0] holds for a missing amount and for a
    number that is zero or less, and for no other. *)
Lemma amount_guard (amount : option Q) :
  negb (Js.truthyNumber amount) || Js.leNumber amount 0 = true
  <-> amount = None \/ exists q : Q, amount = Some q /\ (q <= 0)%Q.
Proof.
  destruct amount as [q |]; cbn [Js.truthyNumber Js.leNumber negb orb].
  - rewrite negb_involutive, orb_true_iff, Qeq_bool_iff, Qle_bool_iff. split.
    + intros [Hz | Hle]; right; exists q; split; try reflexivity.
      * rewrite Hz. apply Qle_refl.
      * exact Hle.
    + intros [[=] | (q' & [= <-] & Hle)]. right. exact Hle.
  - split; [left; reflexivity | reflexivity].
Qed.

Lemma forall_mapSet (P : Booking.t -> Prop) (m : list (string * Booking.t))
  (k : string) (v : Booking.t) :
  Forall (fun kb => P (snd kb)) m -> P v ->
  Forall (fun kb => P (snd kb)) (Js.mapSet m k v).
Proof.
  intros Hm Hv. induction Hm as [| [k' v'] m Hhd Htl IH]; cbn [Js.mapSet].
  - constructor; [exact Hv | constructor].
  - destruct (String.eqb k' k); constructor; assumption.
Qed.

Lemma forall_mapGet (P : Booking.t -> Prop) (m : list (string * Booking.t))
  (k : string) (v : Booking.t) :
  Forall (fun kb => P (snd kb)) m -> Js.mapGet m k = Some v -> P v.
Proof.
  intros Hm. induction Hm as [| [k' v'] m Hhd Htl IH]; cbn [Js.mapGet]; [discriminate |].
  destruct (String.eqb k' k); [intros [= <-]; exact Hhd | exact IH].
Qed.

(** An update with one of the three statuses keeps every booking on them. *)
Lemma mockFlow_update (this : MemStorage.t) (id status : string)
  (intent : option string) :
  status = "processing" \/ status = "completed" ->
  Forall (fun kb => mockFlowStatus (snd kb)) (MemStorage.bookings this) ->
  Forall (fun kb => mockFlowStatus (snd kb))
    (MemStorage.bookings
       (fst (MemStorage.updateBookingPaymentStatus this id status intent))).
Proof.
  intros Hstatus Hall.
  destruct (MemStorage.getBooking this id) as [b |] eqn:Hb.
  - rewrite (update_present _ _ _ _ _ Hb). cbn [fst MemStorage.bookings].
    apply forall_mapSet; [exact Hall |].
    unfold mockFlowStatus. cbn [withPayment Booking.paymentStatus].
    destruct Hstatus as [-> | ->]; tauto.
  - rewrite (update_missing _ _ _ _ Hb). exact Hall.
Qed.

Lemma mockFlow_handle (checks : Q -> list (string * string))
  (storage : MemStorage.t) (env : Env.t) (req : Routes.Request) :
  Forall (fun kb => mockFlowStatus (snd kb)) (MemStorage.bookings storage) ->
  Forall (fun kb => mockFlowStatus (snd kb))
    (MemStorage.bookings (fst (Routes.handle checks storage env req))).
Proof.
  intros Hall.
  destruct req as [| id | body | reference | amount bookingId | paymentIntentId bookingId];
    cbn [Routes.handle].
  - exact Hall.
  - unfold Routes.getExperience.
    destruct (MemStorage.getExperience storage id); exact Hall.
  - unfold Routes.postBookings.
    destruct (Zod.parse checks body) as [validatedData | errors]; [| exact Hall].
    cbn [MemStorage.createBooking fst MemStorage.bookings].
    apply forall_mapSet; [exact Hall | left; reflexivity].
  - unfold Routes.getBooking.
    destruct (MemStorage.getBookingByReference storage reference); exact Hall.
  - unfold Routes.postCreatePaymentIntent.
    destruct (negb (Js.truthyNumber amount) || Js.leNumber amount 0); [exact Hall |].
    cbn [fst].
    destruct bookingId as [bookingId |]; [| exact Hall].
    destruct (Js.truthyString bookingId); [| exact Hall].
    apply mockFlow_update; [left; reflexivity | exact Hall].
  - unfold Routes.postConfirmPayment.
    destruct paymentIntentId as [paymentIntentId |]; [| exact Hall].
    destruct bookingId as [bookingId |]; [| exact Hall].
    destruct (negb (Js.truthyString paymentIntentId) || negb (Js.truthyString bookingId));
      [exact Hall |].
    pose proof (mockFlow_update storage bookingId "completed" (Some paymentIntentId)
                  ltac:(right; reflexivity) Hall) as Hupd.
    destruct (MemStorage.updateBookingPaymentStatus
                storage bookingId "completed" (Some paymentIntentId)) as [storage' updated].
    exact Hupd.
Qed.

End RouteFacts.

(** C5.  From the initial store, after any sequence of requests to the six
    routes, every stored booking has payment status ["pending"],
    ["processing"] or ["completed"]: none has ["failed"], by identifier or
    by reference. *)
Theorem mock_flow_never_fails
  (checks : Q -> list (string * string)) (reqs : list (Env.t * Routes.Request)) :
  let storage := Routes.run checks MemStorage.new reqs in
  Forall (fun kb => mockFlowStatus (snd kb)) (MemStorage.bookings storage)
  /\ Forall (fun kb => Booking.paymentStatus (snd kb) <> Some "failed")
       (MemStorage.bookings storage)
  /\ Forall (fun b => Booking.paymentStatus b <> Some "failed")
       (Js.mapValues (MemStorage.bookings storage)).
Proof.
  intros storage.
  assert (Hall : Forall (fun kb => mockFlowStatus (snd kb)) (MemStorage.bookings storage)).
  { subst storage. unfold Routes.run.
    assert (Hinit : Forall (fun kb => mockFlowStatus (snd kb))
                      (MemStorage.bookings MemStorage.new)) by constructor.
    revert Hinit. generalize MemStorage.new.
    induction reqs as [| [env req] reqs IH]; intros st Hst; cbn [fold_left]; [exact Hst |].
    apply IH. cbn [fst snd]. apply mockFlow_handle, Hst. }
  assert (Hnot : Forall (fun kb => Booking.paymentStatus (snd kb) <> Some "failed")
                   (MemStorage.bookings storage)).
  { eapply List.Forall_impl; [| exact Hall].
    intros [k b] [H | [H | H]]; cbn [snd] in *; rewrite H; discriminate. }
  split; [exact Hall |]. split; [exact Hnot |].
  unfold Js.mapValues. apply List.Forall_map. exact Hnot.
Qed.

(** C6.  [POST /api/create-payment-intent] answers 400, "Valid amount is
    required", exactly when the amount is missing or is zero or less, and
    then leaves the store as it is.  Otherwise it answers 200 with a client
    secret and a payment-intent id made of the time in milliseconds; when
    the booking id, a non-empty string, names a stored booking, that
    booking then has status ["processing"] and this payment-intent id, and
    when it names none the store is as before. *)
Theorem create_payment_intent_contract
  (storage : MemStorage.t) (env : Env.t) (amount : option Q)
  (bookingId : option string) :
  let result := Routes.postCreatePaymentIntent storage env amount bookingId in
  let intentId := ("pi_mock_" ++ Js.numberToString (Env.dateNow1 env))%string in
  let invalid := amount = None \/ exists q : Q, amount = Some q /\ (q <= 0)%Q in
  (Routes.status (snd result) = 400 <-> invalid)
  /\ (invalid ->
      result = (storage, Routes.mkResponse 400 (Routes.Message "Valid amount is required")))
  /\ (~ invalid ->
      snd result
      = Routes.mkResponse 200
          (Routes.PaymentIntent
             ("pi_mock_" ++ Js.numberToString (Env.dateNow2 env) ++ "_secret_mock")
             intentId)
      /\ (forall (id : string) (b : Booking.t),
            bookingId = Some id -> id <> "" ->
            MemStorage.getBooking storage id = Some b ->
            exists b' : Booking.t,
              MemStorage.getBooking (fst result) id = Some b'
              /\ Booking.paymentStatus b' = Some "processing"
              /\ Booking.stripePaymentIntentId b' = Some intentId
              /\ agreeExceptPayment b b')
      /\ ((forall id : string,
              bookingId = Some id -> MemStorage.getBooking storage id = None) ->
          fst result = storage)).
Proof.
  intros result intentId invalid.
  pose proof (amount_guard amount) as Hguard. fold invalid in Hguard.
  subst result. unfold Routes.postCreatePaymentIntent.
  destruct (negb (Js.truthyNumber amount) || Js.leNumber amount 0) eqn:Hg.
  - assert (Hinv : invalid) by (apply Hguard; reflexivity).
    split; [split; [intros _; exact Hinv | reflexivity] |].
    split; [reflexivity | contradiction].
  - assert (Hval : ~ invalid) by (intros Hinv; apply Hguard in Hinv; discriminate).
    split; [split; [discriminate | contradiction] |].
    split; [contradiction |].
    intros _. cbn [fst snd]. split; [reflexivity |]. split.
    + intros id b -> Hid Hb. rewrite (truthyString_true id Hid).
      rewrite (update_present _ _ _ _ _ Hb). cbn [fst].
      eexists. split; [apply mapGet_mapSet_eq |].
      split; [reflexivity |].
      split; [| apply agreeExceptPayment_withPayment].
      cbn [withPayment Booking.stripePaymentIntentId].
      apply orElse_nonempty, mockIntentId_nonempty.
    + intros Hnone. destruct bookingId as [id |]; [| reflexivity].
      destruct (Js.truthyString id); [| reflexivity].
      rewrite (update_missing _ _ _ _ (Hnone id eq_refl)). reflexivity.
Qed.

Lemma create_payment_intent_contract_witness :
  Routes.postCreatePaymentIntent Sample.store1 Sample.env1 (Some 0%Q) None
  = (Sample.store1, Routes.mkResponse 400 (Routes.Message "Valid amount is required"))
  /\ snd (Routes.postCreatePaymentIntent
            Sample.store1 Sample.env1 (Some 240%Q) (Some "6f1c2a9e-0001"))
     = Routes.mkResponse 200
         (Routes.PaymentIntent "pi_mock_1735725600501_secret_mock"
            "pi_mock_1735725600500")
  /\ exists b' : Booking.t,
       MemStorage.getBooking
         (fst (Routes.postCreatePaymentIntent
                 Sample.store1 Sample.env1 (Some 240%Q) (Some "6f1c2a9e-0001")))
         "6f1c2a9e-0001" = Some b'
       /\ Booking.paymentStatus b' = Some "processing"
       /\ Booking.stripePaymentIntentId b' = Some "pi_mock_1735725600500".
Proof.
  split.
  - apply (create_payment_intent_contract Sample.store1 Sample.env1 (Some 0%Q) None).
    right. exists 0%Q. split; [reflexivity | vm_compute; discriminate].
  - destruct (create_payment_intent_contract
                Sample.store1 Sample.env1 (Some 240%Q) (Some "6f1c2a9e-0001"))
      as (_ & _ & Hvalid).
    destruct Hvalid as (Hresp & Hbooking & _).
    { intros [[=] | (q & [= <-] & Hq)]. vm_compute in Hq. apply Hq. reflexivity. }
    split; [exact Hresp |].
    destruct (Hbooking "6f1c2a9e-0001" _ eq_refl ltac:(discriminate) eq_refl)
      as (b' & Hget & Hstatus & Hintent & _).
    exists b'. split; [exact Hget |]. split; [exact Hstatus | exact Hintent].
Defined.

(** C7.  With a payment-intent id and a booking id that are non-empty and a
    booking stored under that id, [POST /api/confirm-payment] answers 200
    with [success: true] and [paymentStatus: "succeeded"], and the stored
    booking then has status ["completed"].  With either field missing it
    answers 400 and leaves the store as it is. *)
Theorem confirm_payment_contract
  (storage : MemStorage.t) (paymentIntentId bookingId : option string) :
  let result := Routes.postConfirmPayment storage paymentIntentId bookingId in
  (forall (intent id : string) (b : Booking.t),
      paymentIntentId = Some intent -> bookingId = Some id ->
      intent <> "" -> id <> "" ->
      MemStorage.getBooking storage id = Some b ->
      exists b' : Booking.t,
        snd result
        = Routes.mkResponse 200 (Routes.Confirmation true (Some b') "succeeded")
        /\ MemStorage.getBooking (fst result) id = Some b'
        /\ Booking.paymentStatus b' = Some "completed"
        /\ Booking.stripePaymentIntentId b' = Some intent
        /\ agreeExceptPayment b b')
  /\ (paymentIntentId = None \/ bookingId = None ->
      result
      = (storage,
         Routes.mkResponse 400
           (Routes.Message "Payment intent ID and booking ID are required"))).
Proof.
  intros result. subst result. unfold Routes.postConfirmPayment. split.
  - intros intent id b -> -> Hintent Hid Hb.
    rewrite (truthyString_true _ Hintent), (truthyString_true _ Hid).
    cbn [negb orb]. rewrite (update_present _ _ _ _ _ Hb). cbn [fst snd].
    eexists. split; [reflexivity |].
    split; [apply mapGet_mapSet_eq |].
    split; [reflexivity |].
    split; [| apply agreeExceptPayment_withPayment].
    cbn [withPayment Booking.stripePaymentIntentId].
    apply orElse_nonempty, Hintent.
  - intros [-> | ->]; [reflexivity |].
    destruct paymentIntentId; reflexivity.
Qed.

Lemma confirm_payment_contract_witness :
  (exists b' : Booking.t,
      snd (Routes.postConfirmPayment
             Sample.store1' (Some "pi_mock_1735725600500") (Some "6f1c2a9e-0001"))
      = Routes.mkResponse 200 (Routes.Confirmation true (Some b') "succeeded")
      /\ Booking.paymentStatus b' = Some "completed")
  /\ Routes.postConfirmPayment Sample.store1' None (Some "6f1c2a9e-0001")
     = (Sample.store1',
        Routes.mkResponse 400
          (Routes.Message "Payment intent ID and booking ID are required")).
Proof.
  split.
  - destruct (confirm_payment_contract
                Sample.store1' (Some "pi_mock_1735725600500") (Some "6f1c2a9e-0001"))
      as [Hok _].
    destruct (Hok _ _ _ eq_refl eq_refl ltac:(discriminate) ltac:(discriminate) eq_refl)
      as (b' & Hresp & _ & Hstatus & _).
    exists b'. split; [exact Hresp | exact Hstatus].
  - apply (confirm_payment_contract Sample.store1' None (Some "6f1c2a9e-0001")).
    left. reflexivity.
Defined.



(** * Further properties of the store and the routes *)

(** ** More on maps *)

Section MoreMapFacts.
Context {V : Type}.
Implicit Types (m : list (string * V)) (k : string) (v : V).

Lemma mapGet_None_keys m k : Js.mapGet m k = None <-> ~ In k (Js.mapKeys m).
Proof.
  unfold Js.mapKeys.
  induction m as [| [k' v'] m IH]; cbn [Js.mapGet map fst In]; [tauto |].
  destruct (String.eqb_spec k' k) as [-> | Hne].
  - split; [discriminate | intros H; exfalso; apply H; left; reflexivity].
  - rewrite IH. tauto.
Qed.

(** Writing an unused key adds one entry, at the end. *)
Lemma mapSet_absent m k v :
  Js.mapGet m k = None -> Js.mapSet m k v = (m ++ [(k, v)])%list.
Proof.
  induction m as [| [k' v'] m IH]; cbn [Js.mapGet Js.mapSet]; [reflexivity |].
  destruct (String.eqb_spec k' k); [discriminate |].
  intros Hnone. rewrite (IH Hnone). reflexivity.
Qed.

(** The keys after a write: the same, or one more at the end. *)
Lemma mapKeys_mapSet m k v :
  Js.mapKeys (Js.mapSet m k v)
  = (Js.mapKeys m ++ match Js.mapGet m k with Some _ => [] | None => [k] end)%list.
Proof.
  destruct (Js.mapGet m k) as [v0 |] eqn:Hget.
  - rewrite (mapKeys_mapSet_present m k v v0 Hget), app_nil_r. reflexivity.
  - rewrite (mapSet_absent m k v Hget). unfold Js.mapKeys.
    rewrite map_app. reflexivity.
Qed.

Lemma mapKeys_mapSet_NoDup m k v :
  List.NoDup (Js.mapKeys m) -> List.NoDup (Js.mapKeys (Js.mapSet m k v)).
Proof.
  intros Hnd. rewrite mapKeys_mapSet.
  destruct (Js.mapGet m k) as [v0 |] eqn:Hget.
  - rewrite app_nil_r. exact Hnd.
  - apply mapGet_None_keys in Hget.
    apply List.NoDup_app; [exact Hnd | constructor; [intros [] | constructor] |].
    intros x Hx [<- | []]. exact (Hget Hx).
Qed.

(** A second write to a key replaces the first. *)
Lemma mapSet_mapSet m k v v' :
  Js.mapSet (Js.mapSet m k v) k v' = Js.mapSet m k v'.
Proof.
  induction m as [| [k0 v0] m IH]; cbn [Js.mapSet].
  - rewrite String.eqb_refl. reflexivity.
  - destruct (String.eqb_spec k0 k) as [-> | Hne]; cbn [Js.mapSet].
    + rewrite String.eqb_refl. reflexivity.
    + destruct (String.eqb_spec k0 k); [contradiction |]. rewrite IH. reflexivity.
Qed.

(** Writes to two keys that are there can be done in either order. *)
Lemma mapSet_comm m k1 k2 v1 v2 (old1 old2 : V) :
  k1 <> k2 -> Js.mapGet m k1 = Some old1 -> Js.mapGet m k2 = Some old2 ->
  Js.mapSet (Js.mapSet m k1 v1) k2 v2 = Js.mapSet (Js.mapSet m k2 v2) k1 v1.
Proof.
  intros Hne. revert old1 old2.
  induction m as [| [k0 v0] m IH]; intros old1 old2; cbn [Js.mapGet Js.mapSet];
    [discriminate |].
  destruct (String.eqb_spec k0 k1) as [E1 | N1];
    destruct (String.eqb_spec k0 k2) as [E2 | N2]; cbn [Js.mapSet].
  - congruence.
  - intros _ _. subst k0.
    destruct (String.eqb_spec k1 k2); [contradiction |].
    rewrite String.eqb_refl. reflexivity.
  - intros _ _. subst k0.
    destruct (String.eqb_spec k2 k1); [congruence |].
    rewrite String.eqb_refl. reflexivity.
  - intros H1 H2.
    destruct (String.eqb_spec k0 k1); [contradiction |].
    destruct (String.eqb_spec k0 k2); [contradiction |].
    rewrite (IH _ _ H1 H2). reflexivity.
Qed.

Lemma forall_entries_mapSet (P : string * V -> Prop) m k v :
  Forall P m -> P (k, v) -> Forall P (Js.mapSet m k v).
Proof.
  intros Hm Hv. induction Hm as [| [k' v'] m Hhd Htl IH]; cbn [Js.mapSet].
  - constructor; [exact Hv | constructor].
  - destruct (String.eqb k' k); constructor; assumption.
Qed.

Lemma forall_entries_mapGet (P : string * V -> Prop) m k v :
  Forall P m -> Js.mapGet m k = Some v -> P (k, v).
Proof.
  intros Hm. induction Hm as [| [k' v'] m Hhd Htl IH]; cbn [Js.mapGet]; [discriminate |].
  destruct (String.eqb_spec k' k) as [<- | Hne]; [intros [= <-]; exact Hhd | exact IH].
Qed.

(** [find] returns the first value that passes, and nothing when none does. *)
Lemma find_first (f : V -> bool) (l : list V) :
  match find f l with
  | Some x =>
      f x = true
      /\ exists before after : list V,
           l = (before ++ x :: after)%list /\ Forall (fun y => f y = false) before
  | None => Forall (fun y => f y = false) l
  end.
Proof.
  induction l as [| y l IH]; cbn [find]; [constructor |].
  destruct (f y) eqn:Hy.
  - split; [exact Hy |]. exists [], l. split; [reflexivity | constructor].
  - destruct (find f l) as [x |].
    + destruct IH as (Hx & before & after & -> & Hbefore).
      split; [exact Hx |]. exists (y :: before), after.
      split; [reflexivity | constructor; assumption].
    + constructor; assumption.
Qed.

End MoreMapFacts.

(** ** What a request does to the store *)

Section HandleFacts.

Variable checks : Q -> list (string * string).

(** A request leaves the store as it is, or creates one booking (answering
    201), or updates the payment fields of one (answering 200). *)
Lemma handle_store (storage : MemStorage.t) (env : Env.t) (req : Routes.Request) :
  let result := Routes.handle checks storage env req in
  fst result = storage
  \/ (exists (body : gmap string Zod.JsonValue) (data : InsertBooking.t),
        req = Routes.PostBookings body
        /\ Routes.status (snd result) = 201
        /\ fst result = fst (MemStorage.createBooking storage data env))
  \/ (exists id status intent : string,
        (status = "processing" \/ status = "completed")
        /\ intent <> ""
        /\ Routes.status (snd result) = 200
        /\ fst result
           = fst (MemStorage.updateBookingPaymentStatus storage id status (Some intent))).
Proof.
  destruct req as [| id | body | reference | amount bookingId | paymentIntentId bookingId];
    cbn [Routes.handle]; cbv zeta.
  - left. reflexivity.
  - left. unfold Routes.getExperience.
    destruct (MemStorage.getExperience storage id); reflexivity.
  - unfold Routes.postBookings.
    destruct (Zod.parse checks body) as [data | errors]; [| left; reflexivity].
    right. left. exists body, data. repeat split.
  - left. unfold Routes.getBooking.
    destruct (MemStorage.getBookingByReference storage reference); reflexivity.
  - unfold Routes.postCreatePaymentIntent.
    destruct (negb (Js.truthyNumber amount) || Js.leNumber amount 0);
      [left; reflexivity |].
    destruct bookingId as [bookingId |]; [| left; reflexivity].
    destruct (Js.truthyString bookingId); [| left; reflexivity].
    right. right.
    exists bookingId, "processing",
      ("pi_mock_" ++ Js.numberToString (Env.dateNow1 env))%string.
    split; [left; reflexivity |].
    split; [apply mockIntentId_nonempty |]. split; reflexivity.
  - unfold Routes.postConfirmPayment.
    destruct paymentIntentId as [paymentIntentId |]; [| left; reflexivity].
    destruct bookingId as [bookingId |]; [| left; reflexivity].
    unfold Js.truthyString.
    destruct (String.eqb_spec paymentIntentId "") as [| Hintent]; [left; reflexivity |].
    destruct (String.eqb_spec bookingId ""); [left; reflexivity |].
    cbn [negb orb]. right. right.
    exists bookingId, "completed", paymentIntentId.
    split; [right; reflexivity |]. split; [exact Hintent |].
    destruct (MemStorage.updateBookingPaymentStatus
                storage bookingId "completed" (Some paymentIntentId));
      split; reflexivity.
Qed.

(** A property of the store that creations and payment updates keep holds
    after every sequence of requests. *)
Lemma run_invariant (P : MemStorage.t -> Prop) :
  (forall st data env, P st -> P (fst (MemStorage.createBooking st data env))) ->
  (forall st id status intent,
      status = "processing" \/ status = "completed" ->
      P st -> P (fst (MemStorage.updateBookingPaymentStatus st id status (Some intent)))) ->
  forall (reqs : list (Env.t * Routes.Request)) (storage : MemStorage.t),
    P storage -> P (Routes.run checks storage reqs).
Proof.
  intros Hcreate Hupdate. unfold Routes.run.
  induction reqs as [| [env req] reqs IH]; intros storage Hst; cbn [fold_left];
    [exact Hst |].
  apply IH. cbn [fst snd].
  destruct (handle_store storage env req)
    as [-> | [(body & data & _ & _ & ->) | (id & status & intent & Hs & _ & _ & ->)]].
  - exact Hst.
  - apply Hcreate, Hst.
  - apply Hupdate; assumption.
Qed.

Lemma run_cons (storage : MemStorage.t) (env : Env.t) (req : Routes.Request)
  (reqs : list (Env.t * Routes.Request)) :
  Routes.run checks storage ((env, req) :: reqs)
  = Routes.run checks (fst (Routes.handle checks storage env req)) reqs.
Proof. reflexivity. Qed.

End HandleFacts.

(** ** Invariants of the store under the routes *)

Lemma run_users_experiences (checks : Q -> list (string * string))
  (storage : MemStorage.t) (reqs : list (Env.t * Routes.Request)) :
  MemStorage.users (Routes.run checks storage reqs) = MemStorage.users storage
  /\ MemStorage.experiences (Routes.run checks storage reqs)
     = MemStorage.experiences storage.
Proof.
  apply (run_invariant checks
           (fun st => MemStorage.users st = MemStorage.users storage
                      /\ MemStorage.experiences st = MemStorage.experiences storage)).
  - intros st data env H. exact H.
  - intros st id status intent _ H.
    destruct (MemStorage.getBooking st id) as [b |] eqn:Hb.
    + rewrite (update_present _ _ _ _ _ Hb). exact H.
    + rewrite (update_missing _ _ _ _ Hb). exact H.
  - split; reflexivity.
Qed.

(** X1.  From the initial store, after any sequence of requests, the
    bookings map has no identifier twice and every booking is stored under
    its own [id]. *)
Theorem bookings_are_keyed_by_their_id
  (checks : Q -> list (string * string)) (reqs : list (Env.t * Routes.Request)) :
  let storage := Routes.run checks MemStorage.new reqs in
  List.NoDup (Js.mapKeys (MemStorage.bookings storage))
  /\ Forall (fun kb => Booking.id (snd kb) = fst kb) (MemStorage.bookings storage).
Proof.
  cbv zeta.
  apply (run_invariant checks
           (fun st =>
              List.NoDup (Js.mapKeys (MemStorage.bookings st))
              /\ Forall (fun kb => Booking.id (snd kb) = fst kb) (MemStorage.bookings st))).
  - intros st data env [Hnd Hid]. cbn [MemStorage.createBooking fst MemStorage.bookings].
    split; [apply mapKeys_mapSet_NoDup, Hnd |].
    apply forall_entries_mapSet; [exact Hid | reflexivity].
  - intros st id status intent _ [Hnd Hid].
    destruct (MemStorage.getBooking st id) as [b |] eqn:Hb.
    + rewrite (update_present _ _ _ _ _ Hb). cbn [fst MemStorage.bookings].
      split; [apply mapKeys_mapSet_NoDup, Hnd |].
      apply forall_entries_mapSet; [exact Hid |].
      exact (forall_entries_mapGet _ _ _ _ Hid Hb).
    + rewrite (update_missing _ _ _ _ Hb). split; assumption.
  - split; constructor.
Qed.

(** X2.  No request writes users or experiences: after any sequence of
    requests on any store both maps are as before, and from the initial
    store the experiences listed are the four of the catalog, in its
    order. *)
Theorem requests_never_touch_users_or_experiences
  (checks : Q -> list (string * string)) (storage : MemStorage.t)
  (reqs : list (Env.t * Routes.Request)) :
  MemStorage.users (Routes.run checks storage reqs) = MemStorage.users storage
  /\ MemStorage.experiences (Routes.run checks storage reqs)
     = MemStorage.experiences storage
  /\ MemStorage.getAllExperiences (Routes.run checks MemStorage.new reqs)
     = MemStorage.defaultExperiences.
Proof.
  pose proof (run_users_experiences checks storage reqs) as [Hu He].
  split; [exact Hu |]. split; [exact He |].
  unfold MemStorage.getAllExperiences.
  rewrite (proj2 (run_users_experiences checks MemStorage.new reqs)). reflexivity.
Qed.

(** X3.  From the initial store, after any sequence of requests,
    [GET /api/experiences/:id] answers 200 with the catalog entry whose id
    is the one asked for, and 404, "Experience not found", when the catalog
    has none; it leaves the store as it is. *)
Theorem get_experience_answers_from_the_catalog
  (checks : Q -> list (string * string)) (reqs : list (Env.t * Routes.Request))
  (env : Env.t) (id : string) :
  let storage := Routes.run checks MemStorage.new reqs in
  let result := Routes.handle checks storage env (Routes.GetExperience id) in
  fst result = storage
  /\ snd result
     = match find (fun e => String.eqb (Experience.id e) id)
                  MemStorage.defaultExperiences with
       | Some e => Routes.mkResponse 200 (Routes.AnExperience e)
       | None => Routes.mkResponse 404 (Routes.Message "Experience not found")
       end.
Proof.
  cbv zeta. cbn [Routes.handle]. unfold Routes.getExperience, MemStorage.getExperience.
  destruct (run_users_experiences checks MemStorage.new reqs)
    as [_ ->].
  change (Js.mapGet (MemStorage.experiences MemStorage.new) id)
    with (find (fun e => String.eqb (Experience.id e) id) MemStorage.defaultExperiences).
  destruct (find (fun e => String.eqb (Experience.id e) id) MemStorage.defaultExperiences);
    split; reflexivity.
Qed.

Section BookingHistory.

Variable checks : Q -> list (string * string).

(** What holds of a stored booking and survives a payment update still
    holds of the booking under that identifier after any requests that do
    not draw the identifier again. *)
Lemma run_booking (P : Booking.t -> Prop) (id : string) :
  (forall x status intent,
      status = "processing" \/ status = "completed" ->
      P x -> P (withPayment x status intent)) ->
  forall (reqs : list (Env.t * Routes.Request)) (storage : MemStorage.t) (b : Booking.t),
    MemStorage.getBooking storage id = Some b -> P b ->
    Forall (drawsAnother id) reqs ->
    exists b' : Booking.t,
      MemStorage.getBooking (Routes.run checks storage reqs) id = Some b' /\ P b'.
Proof.
  intros Hstable.
  induction reqs as [| [env req] reqs IH]; intros storage b Hb HP Hreqs.
  - exists b. split; assumption.
  - rewrite run_cons. inversion Hreqs as [| er rest Hhead Htail]; subst.
    assert (Hstep : exists b1,
               MemStorage.getBooking (fst (Routes.handle checks storage env req)) id
               = Some b1 /\ P b1).
    { destruct (handle_store checks storage env req)
        as [-> | [(body & data & -> & _ & ->)
                 | (id' & status & intent & Hs & _ & _ & ->)]].
      - exists b. split; assumption.
      - exists b. split; [| exact HP].
        rewrite getBooking_createBooking_other; [exact Hb |].
        intros Heq. apply Hhead. symmetry. exact Heq.
      - destruct (MemStorage.getBooking storage id') as [old |] eqn:Hold.
        + rewrite (update_present _ _ _ _ _ Hold).
          unfold MemStorage.getBooking. cbn [fst MemStorage.bookings].
          destruct (String.eqb_spec id id') as [-> | Hne].
          * rewrite mapGet_mapSet_eq. eexists. split; [reflexivity |].
            apply Hstable; [exact Hs |].
            unfold MemStorage.getBooking in Hb, Hold. congruence.
          * rewrite mapGet_mapSet_ne by exact Hne. exists b. split; assumption.
        + rewrite (update_missing _ _ _ _ Hold). exists b. split; assumption. }
    destruct Hstep as (b1 & Hb1 & HP1).
    exact (IH _ b1 Hb1 HP1 Htail).
Qed.

(** The identifiers after a request: those before, and the one drawn when
    the request created a booking under an unused identifier. *)
Lemma handle_keys (storage : MemStorage.t) (env : Env.t) (req : Routes.Request) :
  exists added : list string,
    Js.mapKeys (MemStorage.bookings (fst (Routes.handle checks storage env req)))
    = (Js.mapKeys (MemStorage.bookings storage) ++ added)%list
    /\ (added = []
        \/ exists body, req = Routes.PostBookings body /\ added = [Env.randomUUID env]).
Proof.
  destruct (handle_store checks storage env req)
    as [-> | [(body & data & -> & _ & ->)
             | (id' & status & intent & _ & _ & _ & ->)]].
  - exists []. rewrite app_nil_r. split; [reflexivity | left; reflexivity].
  - cbn [MemStorage.createBooking fst MemStorage.bookings].
    rewrite mapKeys_mapSet.
    destruct (Js.mapGet (MemStorage.bookings storage) (Env.randomUUID env)).
    + exists []. split; [reflexivity | left; reflexivity].
    + exists [Env.randomUUID env]. split; [reflexivity |].
      right. exists body. split; reflexivity.
  - exists []. rewrite app_nil_r. split; [| left; reflexivity].
    destruct (MemStorage.getBooking storage id') as [old |] eqn:Hold.
    + rewrite (update_present _ _ _ _ _ Hold). cbn [fst MemStorage.bookings].
      eapply mapKeys_mapSet_present. exact Hold.
    + rewrite (update_missing _ _ _ _ Hold). reflexivity.
Qed.

End BookingHistory.

(** X4.  A request answered 400 or 404 leaves the store as it is, and so
    does every [GET], whatever it answers. *)
Theorem refused_requests_and_reads_change_nothing
  (checks : Q -> list (string * string)) (storage : MemStorage.t) (env : Env.t)
  (req : Routes.Request) :
  let result := Routes.handle checks storage env req in
  (Routes.status (snd result) = 400 \/ Routes.status (snd result) = 404 ->
   fst result = storage)
  /\ match req with
     | Routes.GetExperiences | Routes.GetExperience _ | Routes.GetBooking _ =>
         fst result = storage
     | _ => True
     end.
Proof.
  cbv zeta. split.
  - intros Hstatus.
    destruct (handle_store checks storage env req)
      as [H | [(body & data & _ & H201 & _) | (id & status & intent & _ & _ & H200 & _)]].
    + exact H.
    + rewrite H201 in Hstatus. destruct Hstatus; discriminate.
    + rewrite H200 in Hstatus. destruct Hstatus; discriminate.
  - destruct req; try exact I; cbn [Routes.handle].
    + reflexivity.
    + unfold Routes.getExperience.
      destruct (MemStorage.getExperience storage id); reflexivity.
    + unfold Routes.getBooking.
      destruct (MemStorage.getBookingByReference storage reference); reflexivity.
Qed.

Lemma refused_requests_and_reads_change_nothing_witness :
  fst (Routes.handle Zod.int32Checks Sample.store1 Sample.env2
         (Routes.PostBookings Sample.bodyThreeFaults)) = Sample.store1.
Proof.
  apply (refused_requests_and_reads_change_nothing
           Zod.int32Checks Sample.store1 Sample.env2
           (Routes.PostBookings Sample.bodyThreeFaults)).
  left. vm_compute. reflexivity.
Defined.

(** X5.  No request removes or reorders bookings: after any sequence of
    requests the identifiers stored before are still there, in the same
    order, followed by new ones; each new one was drawn by a request that
    created a booking, and there are at most as many as requests. *)
Theorem bookings_are_never_removed
  (checks : Q -> list (string * string)) (storage : MemStorage.t)
  (reqs : list (Env.t * Routes.Request)) :
  exists added : list string,
    Js.mapKeys (MemStorage.bookings (Routes.run checks storage reqs))
    = (Js.mapKeys (MemStorage.bookings storage) ++ added)%list
    /\ Forall (fun k => exists env body,
                   In (env, Routes.PostBookings body) reqs /\ k = Env.randomUUID env)
         added
    /\ (length added <= length reqs)%nat.
Proof.
  revert storage. induction reqs as [| [env req] reqs IH]; intros storage.
  - exists []. rewrite app_nil_r. repeat split; constructor.
  - rewrite run_cons.
    destruct (handle_keys checks storage env req) as (first & Hkeys & Hfirst).
    destruct (IH (fst (Routes.handle checks storage env req)))
      as (rest & Hrest & Hfrom & Hlen).
    exists (first ++ rest)%list. rewrite Hrest, Hkeys, <- app_assoc.
    split; [reflexivity |]. split.
    + apply Forall_app. split.
      * destruct Hfirst as [-> | (body & -> & ->)]; [constructor |].
        constructor; [| constructor].
        exists env, body. split; [left; reflexivity | reflexivity].
      * eapply List.Forall_impl; [| exact Hfrom].
        intros k (env' & body' & Hin & Hk). exists env', body'.
        split; [right; exact Hin | exact Hk].
    + rewrite length_app. cbn [length].
      destruct Hfirst as [-> | (body & _ & ->)]; cbn [length]; lia.
Qed.

(** X6.  A stored booking keeps its identifier, reference number, guest and
    stay details, amount and creation time through any later requests that
    do not draw its identifier again: only its two payment fields can
    differ. *)
Theorem stored_booking_keeps_its_details
  (checks : Q -> list (string * string)) (storage : MemStorage.t)
  (reqs : list (Env.t * Routes.Request)) (id : string) (b : Booking.t) :
  MemStorage.getBooking storage id = Some b ->
  Forall (drawsAnother id) reqs ->
  exists b' : Booking.t,
    MemStorage.getBooking (Routes.run checks storage reqs) id = Some b'
    /\ agreeExceptPayment b b'.
Proof.
  intros Hb Hreqs.
  apply (run_booking checks (agreeExceptPayment b) id) with (b := b);
    [| exact Hb | apply agreeExceptPayment_refl | exact Hreqs].
  intros x status intent _ Hx.
  eapply agreeExceptPayment_trans; [exact Hx | apply agreeExceptPayment_withPayment].
Qed.

Lemma stored_booking_keeps_its_details_witness :
  exists b' : Booking.t,
    MemStorage.getBooking
      (Routes.run Zod.int32Checks Sample.store1 Scenario.later) "6f1c2a9e-0001"
    = Some b'
    /\ agreeExceptPayment
         (snd (MemStorage.createBooking MemStorage.new Sample.insertBooking Sample.env1))
         b'.
Proof.
  apply (stored_booking_keeps_its_details
           Zod.int32Checks Sample.store1 Scenario.later "6f1c2a9e-0001").
  - reflexivity.
  - repeat constructor. cbn. discriminate.
Defined.

(** X7.  A booking whose payment status is no longer ["pending"] never
    gets it back: after any later requests that do not draw its identifier
    again, the status of the booking under that identifier is still not
    ["pending"]. *)
Theorem payment_status_never_returns_to_pending
  (checks : Q -> list (string * string)) (storage : MemStorage.t)
  (reqs : list (Env.t * Routes.Request)) (id : string) (b : Booking.t) :
  MemStorage.getBooking storage id = Some b ->
  Booking.paymentStatus b <> Some "pending" ->
  Forall (drawsAnother id) reqs ->
  exists b' : Booking.t,
    MemStorage.getBooking (Routes.run checks storage reqs) id = Some b'
    /\ Booking.paymentStatus b' <> Some "pending".
Proof.
  intros Hb Hstatus Hreqs.
  apply (run_booking checks (fun x => Booking.paymentStatus x <> Some "pending") id)
    with (b := b); [| exact Hb | exact Hstatus | exact Hreqs].
  intros x status intent [-> | ->] _; discriminate.
Qed.

Lemma payment_status_never_returns_to_pending_witness :
  exists b' : Booking.t,
    MemStorage.getBooking
      (Routes.run Zod.int32Checks Sample.store1' Scenario.later) "6f1c2a9e-0001"
    = Some b'
    /\ Booking.paymentStatus b' <> Some "pending".
Proof.
  eapply (payment_status_never_returns_to_pending
            Zod.int32Checks Sample.store1' Scenario.later "6f1c2a9e-0001").
  - reflexivity.
  - discriminate.
  - repeat constructor. cbn. discriminate.
Defined.

(** ** Lookup by reference *)

(** X8.  [getBookingByReference] returns the first booking, in insertion
    order, whose reference number is exactly the one asked for, and
    [GET /api/bookings/:reference] answers 200 with it; when no stored
    booking has that reference number the lookup returns nothing and the
    route answers 404, "Booking not found". *)
Theorem getBookingByReference_returns_first_match
  (this : MemStorage.t) (referenceNumber : string) :
  match MemStorage.getBookingByReference this referenceNumber with
  | Some b =>
      Booking.referenceNumber b = referenceNumber
      /\ (exists before after : list Booking.t,
             Js.mapValues (MemStorage.bookings this) = (before ++ b :: after)%list
             /\ Forall (fun x => Booking.referenceNumber x <> referenceNumber) before)
      /\ Routes.getBooking this referenceNumber
         = (this, Routes.mkResponse 200 (Routes.ABooking b))
  | None =>
      Forall (fun x => Booking.referenceNumber x <> referenceNumber)
        (Js.mapValues (MemStorage.bookings this))
      /\ Routes.getBooking this referenceNumber
         = (this, Routes.mkResponse 404 (Routes.Message "Booking not found"))
  end.
Proof.
  unfold Routes.getBooking, MemStorage.getBookingByReference.
  pose proof (find_first
                (fun booking =>
                   String.eqb (Booking.referenceNumber booking) referenceNumber)
                (Js.mapValues (MemStorage.bookings this))) as Hfind.
  assert (Hne : forall l : list Booking.t,
             Forall (fun y => String.eqb (Booking.referenceNumber y) referenceNumber = false) l ->
             Forall (fun x => Booking.referenceNumber x <> referenceNumber) l).
  { intros l Hl. eapply List.Forall_impl; [| exact Hl].
    intros x Hx. apply String.eqb_neq, Hx. }
  destruct (find _ (Js.mapValues (MemStorage.bookings this))) as [b |].
  - destruct Hfind as (Hb & before & after & Hsplit & Hbefore).
    split; [apply String.eqb_eq, Hb |]. split; [| reflexivity].
    exists before, after. split; [exact Hsplit | apply Hne, Hbefore].
  - split; [apply Hne, Hfind | reflexivity].
Qed.

(** ** More on validation *)

Section MoreZodFacts.

Variable checks : Q -> list (string * string).

Lemma objectIssues_insertBookingSchema (body : gmap string Zod.JsonValue) :
  Zod.objectIssues checks Zod.insertBookingSchema body
  = (Zod.fieldIssues checks (Zod.mkField Zod.ZString false false) "experienceId"
       (body !! "experienceId")
     ++ Zod.fieldIssues checks (Zod.mkField Zod.ZString false false) "firstName"
          (body !! "firstName")
     ++ Zod.fieldIssues checks (Zod.mkField Zod.ZString false false) "lastName"
          (body !! "lastName")
     ++ Zod.fieldIssues checks (Zod.mkField Zod.ZString false false) "email"
          (body !! "email")
     ++ Zod.fieldIssues checks (Zod.mkField Zod.ZString false false) "phone"
          (body !! "phone")
     ++ Zod.fieldIssues checks (Zod.mkField Zod.ZString false false) "checkinDate"
          (body !! "checkinDate")
     ++ Zod.fieldIssues checks (Zod.mkField Zod.ZString false false) "checkoutDate"
          (body !! "checkoutDate")
     ++ Zod.fieldIssues checks (Zod.mkField Zod.ZNumber false false) "participants"
          (body !! "participants")
     ++ Zod.fieldIssues checks (Zod.mkField Zod.ZString true true) "specialRequests"
          (body !! "specialRequests")
     ++ Zod.fieldIssues checks (Zod.mkField Zod.ZString false false) "totalAmount"
          (body !! "totalAmount"))%list.
Proof.
  unfold Zod.objectIssues. rewrite insertBookingSchema_fields.
  cbn [flat_map fst snd]. rewrite app_nil_r. reflexivity.
Qed.

Lemma required_string_ok (k : string) (v : option Zod.JsonValue) :
  Zod.fieldIssues checks (Zod.mkField Zod.ZString false false) k v = []
  <-> Zod.isString v = true.
Proof.
  rewrite required_string_issues.
  destruct (Zod.isString v); split; (reflexivity || discriminate).
Qed.

Lemma required_number_ok (k : string) (v : option Zod.JsonValue) :
  Zod.fieldIssues checks (Zod.mkField Zod.ZNumber false false) k v = []
  <-> exists q : Q, v = Some (Zod.JNumber q) /\ checks q = [].
Proof.
  destruct v as [[| b | q | s | items | members] |];
    cbn [Zod.fieldIssues Zod.baseIssues Zod.base Zod.nullable Zod.optional];
    try (split; [discriminate | intros (q' & [=] & _)]).
  split.
  - intros Hmap. exists q. split; [reflexivity |].
    destruct (checks q); [reflexivity | discriminate].
  - intros (q' & [= <-] & ->). reflexivity.
Qed.

Lemma optional_string_ok (k : string) (v : option Zod.JsonValue) :
  Zod.fieldIssues checks (Zod.mkField Zod.ZString true true) k v = []
  <-> v = None \/ v = Some Zod.JNull \/ Zod.isString v = true.
Proof.
  destruct v as [[| b | q | s | items | members] |];
    cbn [Zod.fieldIssues Zod.baseIssues Zod.base Zod.nullable Zod.optional Zod.isString];
    split; try discriminate; try tauto;
    intros [H | [H | H]]; discriminate.
Qed.

(** A body raises no issue exactly when it is well typed. *)
Lemma objectIssues_nil (body : gmap string Zod.JsonValue) :
  Zod.objectIssues checks Zod.insertBookingSchema body = [] <-> wellTyped checks body.
Proof.
  rewrite objectIssues_insertBookingSchema. unfold wellTyped.
  rewrite !app_nil, !required_string_ok, required_number_ok, optional_string_ok.
  tauto.
Qed.

Lemma isString_lookup (v : option Zod.JsonValue) :
  Zod.isString v = true -> exists s : string, v = Some (Zod.JString s).
Proof. destruct v as [[] |]; try discriminate. intros _. eexists. reflexivity. Qed.

(** The issues depend on the keys of the shape alone. *)
Lemma objectIssues_ext (shape : list (string * Zod.FieldSchema))
  (body1 body2 : gmap string Zod.JsonValue) :
  (forall k, In k (map fst shape) -> body1 !! k = body2 !! k) ->
  Zod.objectIssues checks shape body1 = Zod.objectIssues checks shape body2.
Proof.
  unfold Zod.objectIssues.
  induction shape as [| [k f] shape IH]; intros Hagree; cbn [flat_map fst snd];
    [reflexivity |].
  rewrite (Hagree k) by (left; reflexivity).
  rewrite IH; [reflexivity |].
  intros k' Hk'. apply Hagree. right. exact Hk'.
Qed.

End MoreZodFacts.

(** X9.  [POST /api/bookings] answers 201 exactly when the body is well
    typed: strings under the eight required text keys, a number passing the
    integer-column checks under [participants], and a string, null or
    nothing under [specialRequests]; what the strings contain plays no
    part.  Every other body is answered 400 and leaves the store as it
    is. *)
Theorem bookings_route_accepts_well_typed_bodies
  (checks : Q -> list (string * string)) (storage : MemStorage.t) (env : Env.t)
  (body : gmap string Zod.JsonValue) :
  let result := Routes.postBookings checks storage env body in
  (Routes.status (snd result) = 201 <-> wellTyped checks body)
  /\ (Routes.status (snd result) = 201
      \/ Routes.status (snd result) = 400 /\ fst result = storage).
Proof.
  cbv zeta. rewrite <- objectIssues_nil.
  unfold Routes.postBookings, Zod.parse.
  destruct (Zod.objectIssues checks Zod.insertBookingSchema body) as [| i errors].
  - split; [split; reflexivity | left; reflexivity].
  - split; [split; discriminate | right; split; reflexivity].
Qed.

(** X10.  When the body raises no issue, [POST /api/bookings] answers 201
    with a booking stored under the identifier drawn, and the booking
    carries the body's values unchanged: the eight strings, the number of
    participants, and the special requests, where an empty string, null
    and nothing are all stored as null. *)
Theorem accepted_body_is_stored_as_sent
  (checks : Q -> list (string * string)) (storage : MemStorage.t) (env : Env.t)
  (body : gmap string Zod.JsonValue) :
  Zod.objectIssues checks Zod.insertBookingSchema body = [] ->
  exists b : Booking.t,
    snd (Routes.postBookings checks storage env body)
    = Routes.mkResponse 201 (Routes.ABooking b)
    /\ MemStorage.getBooking (fst (Routes.postBookings checks storage env body))
         (Env.randomUUID env) = Some b
    /\ body !! "experienceId" = Some (Zod.JString (Booking.experienceId b))
    /\ body !! "firstName" = Some (Zod.JString (Booking.firstName b))
    /\ body !! "lastName" = Some (Zod.JString (Booking.lastName b))
    /\ body !! "email" = Some (Zod.JString (Booking.email b))
    /\ body !! "phone" = Some (Zod.JString (Booking.phone b))
    /\ body !! "checkinDate" = Some (Zod.JString (Booking.checkinDate b))
    /\ body !! "checkoutDate" = Some (Zod.JString (Booking.checkoutDate b))
    /\ body !! "participants" = Some (Zod.JNumber (Booking.participants b))
    /\ body !! "totalAmount" = Some (Zod.JString (Booking.totalAmount b))
    /\ Booking.specialRequests b
       = match body !! "specialRequests" with
         | Some (Zod.JString s) => if String.eqb s "" then None else Some s
         | _ => None
         end.
Proof.
  intros Hnil.
  pose proof (proj1 (objectIssues_nil checks body) Hnil)
    as (H1 & H2 & H3 & H4 & H5 & H6 & H7 & (q & Hq & _) & _ & H10).
  apply isString_lookup in H1, H2, H3, H4, H5, H6, H7, H10.
  destruct H1 as [s1 E1], H2 as [s2 E2], H3 as [s3 E3], H4 as [s4 E4],
    H5 as [s5 E5], H6 as [s6 E6], H7 as [s7 E7], H10 as [s10 E10].
  unfold Routes.postBookings, Zod.parse. rewrite Hnil.
  cbn [MemStorage.createBooking fst snd].
  eexists. split; [reflexivity |].
  split; [apply mapGet_mapSet_eq |].
  cbn [Booking.experienceId Booking.firstName Booking.lastName Booking.email
         Booking.phone Booking.checkinDate Booking.checkoutDate Booking.participants
         Booking.totalAmount Booking.specialRequests Zod.normalize
         InsertBooking.experienceId InsertBooking.firstName InsertBooking.lastName
         InsertBooking.email InsertBooking.phone InsertBooking.checkinDate
         InsertBooking.checkoutDate InsertBooking.participants
         InsertBooking.totalAmount InsertBooking.specialRequests].
  unfold Zod.getString, Zod.getNumber, Zod.getOptionalString.
  rewrite E1, E2, E3, E4, E5, E6, E7, E10, Hq.
  repeat (split; [reflexivity |]).
  destruct (body !! "specialRequests") as [[| | | s | |] |]; try reflexivity.
  cbn [Js.orNull]. unfold Js.truthyString. destruct (String.eqb s ""); reflexivity.
Qed.

Lemma accepted_body_is_stored_as_sent_witness :
  exists b : Booking.t,
    snd (Routes.postBookings Zod.int32Checks MemStorage.new Sample.env1 Sample.body)
    = Routes.mkResponse 201 (Routes.ABooking b)
    /\ Sample.body !! "email" = Some (Zod.JString (Booking.email b))
    /\ Sample.body !! "participants" = Some (Zod.JNumber (Booking.participants b)).
Proof.
  destruct (accepted_body_is_stored_as_sent
              Zod.int32Checks MemStorage.new Sample.env1 Sample.body)
    as (b & Hresp & _ & _ & _ & _ & Hemail & _ & _ & _ & Hparticipants & _).
  - vm_compute. reflexivity.
  - exists b. split; [exact Hresp |]. split; [exact Hemail | exact Hparticipants].
Defined.

(** X11.  A key outside the insert schema plays no part: adding it to a
    body, or changing what it holds, changes neither the response nor the
    store.  So a client cannot set [id], [referenceNumber], [createdAt],
    [paymentStatus] or [stripePaymentIntentId]. *)
Theorem keys_outside_the_schema_are_ignored
  (checks : Q -> list (string * string)) (storage : MemStorage.t) (env : Env.t)
  (body : gmap string Zod.JsonValue) (k : string) (v : Zod.JsonValue) :
  ~ In k (map fst Zod.insertBookingSchema) ->
  Routes.postBookings checks storage env (<[k := v]> body)
  = Routes.postBookings checks storage env body.
Proof.
  intros Hk.
  assert (Hlookup : forall k', In k' (map fst Zod.insertBookingSchema) ->
                               (<[k := v]> body) !! k' = body !! k').
  { intros k' Hk'. apply lookup_insert_ne. intros ->. exact (Hk Hk'). }
  assert (Hissues := objectIssues_ext checks _ _ _ Hlookup).
  assert (Hnormalize : Zod.normalize (<[k := v]> body) = Zod.normalize body).
  { unfold Zod.normalize, Zod.getString, Zod.getNumber, Zod.getOptionalString.
    rewrite !Hlookup by (rewrite insertBookingSchema_fields; cbn [map fst In]; tauto).
    reflexivity. }
  unfold Routes.postBookings, Zod.parse. rewrite Hissues, Hnormalize. reflexivity.
Qed.

Lemma keys_outside_the_schema_are_ignored_witness :
  Routes.postBookings Zod.int32Checks MemStorage.new Sample.env1 bodyWithServerFields
  = Routes.postBookings Zod.int32Checks MemStorage.new Sample.env1
      (<["referenceNumber" := Zod.JString "SM-0000-000000"]> Sample.body).
Proof.
  apply (keys_outside_the_schema_are_ignored
           Zod.int32Checks MemStorage.new Sample.env1
           (<["referenceNumber" := Zod.JString "SM-0000-000000"]> Sample.body)
           "paymentStatus" (Zod.JString "completed")).
  rewrite insertBookingSchema_fields. cbn [map fst In].
  intros H. repeat (destruct H as [H | H]; [discriminate H |]). exact H.
Defined.

(** ** How payment updates compose *)

Section UpdateFacts.

Lemma orElse_assoc (x y : option string) (z : option string) :
  Js.orElse x (Js.orElse y z) = Js.orElse (Js.orElse x y) z.
Proof.
  destruct x as [s |]; cbn [Js.orElse]; [| reflexivity].
  destruct (Js.truthyString s) eqn:Hs; [| reflexivity].
  cbn [Js.orElse]. rewrite Hs. reflexivity.
Qed.

Lemma orElse_same (x : option string) : Js.orElse x x = x.
Proof.
  destruct x as [s |]; cbn [Js.orElse]; [| reflexivity].
  destruct (Js.truthyString s); reflexivity.
Qed.

Lemma update_update (this : MemStorage.t) (id s1 s2 : string)
  (p1 p2 : option string) :
  MemStorage.updateBookingPaymentStatus
    (fst (MemStorage.updateBookingPaymentStatus this id s1 p1)) id s2 p2
  = MemStorage.updateBookingPaymentStatus this id s2 (Js.orElse p2 p1).
Proof.
  destruct (MemStorage.getBooking this id) as [b |] eqn:Hb.
  - rewrite (update_present _ _ s1 p1 _ Hb). cbn [fst].
    rewrite (update_present _ _ s2 (Js.orElse p2 p1) _ Hb).
    erewrite update_present by apply mapGet_mapSet_eq.
    cbn [MemStorage.users MemStorage.experiences MemStorage.bookings].
    rewrite mapSet_mapSet.
    unfold withPayment at 1 3. cbn [Booking.stripePaymentIntentId withPayment
      Booking.id Booking.referenceNumber Booking.experienceId Booking.firstName
      Booking.lastName Booking.email Booking.phone Booking.checkinDate
      Booking.checkoutDate Booking.participants Booking.specialRequests
      Booking.totalAmount Booking.createdAt].
    rewrite orElse_assoc. reflexivity.
  - rewrite (update_missing _ _ s1 p1 Hb). cbn [fst].
    rewrite !(update_missing _ _ _ _ Hb). reflexivity.
Qed.

End UpdateFacts.

(** X12.  Two calls of [updateBookingPaymentStatus] on one identifier do
    what one call does with the later status and with the later
    payment-intent id when that is a non-empty string, the earlier one
    otherwise; store and result are the same.  So a call repeated as it is
    changes nothing more. *)
Theorem later_update_wins
  (this : MemStorage.t) (id s1 s2 : string) (p1 p2 : option string) :
  MemStorage.updateBookingPaymentStatus
    (fst (MemStorage.updateBookingPaymentStatus this id s1 p1)) id s2 p2
  = MemStorage.updateBookingPaymentStatus this id s2 (Js.orElse p2 p1)
  /\ MemStorage.updateBookingPaymentStatus
       (fst (MemStorage.updateBookingPaymentStatus this id s1 p1)) id s1 p1
     = MemStorage.updateBookingPaymentStatus this id s1 p1.
Proof.
  split; [apply update_update |].
  rewrite update_update, orElse_same. reflexivity.
Qed.

(** X13.  Payment updates of two different identifiers can be done in
    either order: the store is the same. *)
Theorem updates_of_different_bookings_commute
  (this : MemStorage.t) (id1 id2 s1 s2 : string) (p1 p2 : option string) :
  id1 <> id2 ->
  fst (MemStorage.updateBookingPaymentStatus
         (fst (MemStorage.updateBookingPaymentStatus this id1 s1 p1)) id2 s2 p2)
  = fst (MemStorage.updateBookingPaymentStatus
           (fst (MemStorage.updateBookingPaymentStatus this id2 s2 p2)) id1 s1 p1).
Proof.
  intros Hne.
  destruct (MemStorage.getBooking this id1) as [b1 |] eqn:H1;
    destruct (MemStorage.getBooking this id2) as [b2 |] eqn:H2.
  - rewrite (update_present _ _ s1 p1 _ H1), (update_present _ _ s2 p2 _ H2). cbn [fst].
    erewrite (update_present _ id2) by
      (unfold MemStorage.getBooking; cbn [MemStorage.bookings];
       rewrite mapGet_mapSet_ne by congruence; exact H2).
    erewrite (update_present _ id1) by
      (unfold MemStorage.getBooking; cbn [MemStorage.bookings];
       rewrite mapGet_mapSet_ne by congruence; exact H1).
    cbn [fst MemStorage.users MemStorage.experiences MemStorage.bookings].
    f_equal. eapply mapSet_comm; [exact Hne | exact H1 | exact H2].
  - rewrite (update_missing _ _ s2 p2 H2). cbn [fst].
    rewrite (update_present _ _ s1 p1 _ H1). cbn [fst].
    rewrite update_missing; [reflexivity |].
    unfold MemStorage.getBooking. cbn [MemStorage.bookings].
    rewrite mapGet_mapSet_ne by congruence. exact H2.
  - rewrite (update_missing _ _ s1 p1 H1). cbn [fst].
    rewrite (update_present _ _ s2 p2 _ H2). cbn [fst].
    rewrite (update_missing _ id1); [reflexivity |].
    unfold MemStorage.getBooking. cbn [MemStorage.bookings].
    rewrite mapGet_mapSet_ne by congruence. exact H1.
  - rewrite (update_missing _ _ s1 p1 H1), (update_missing _ _ s2 p2 H2). cbn [fst].
    rewrite (update_missing _ _ s1 p1 H1), (update_missing _ _ s2 p2 H2). reflexivity.
Qed.

Lemma updates_of_different_bookings_commute_witness :
  fst (MemStorage.updateBookingPaymentStatus
         (fst (MemStorage.updateBookingPaymentStatus
                 Sample.store2 "6f1c2a9e-0001" "completed" (Some "pi_1")))
         "6f1c2a9e-0002" "processing" None)
  = fst (MemStorage.updateBookingPaymentStatus
           (fst (MemStorage.updateBookingPaymentStatus
                   Sample.store2 "6f1c2a9e-0002" "processing" None))
           "6f1c2a9e-0001" "completed" (Some "pi_1")).
Proof.
  apply (updates_of_different_bookings_commute
           Sample.store2 "6f1c2a9e-0001" "6f1c2a9e-0002" "completed" "processing"
           (Some "pi_1") None).
  discriminate.
Defined.

(** X14.  [POST /api/confirm-payment] repeated with the same body answers
    as the first time and leaves the store as the first time left it. *)
Theorem confirm_payment_is_idempotent
  (storage : MemStorage.t) (paymentIntentId bookingId : option string) :
  Routes.postConfirmPayment
    (fst (Routes.postConfirmPayment storage paymentIntentId bookingId))
    paymentIntentId bookingId
  = Routes.postConfirmPayment storage paymentIntentId bookingId.
Proof.
  unfold Routes.postConfirmPayment.
  destruct paymentIntentId as [intent |]; [| reflexivity].
  destruct bookingId as [id |]; [| reflexivity].
  destruct (negb (Js.truthyString intent) || negb (Js.truthyString id)); [reflexivity |].
  pose proof (update_update storage id "completed" "completed" (Some intent) (Some intent))
    as Hupd.
  rewrite orElse_same in Hupd.
  destruct (MemStorage.updateBookingPaymentStatus storage id "completed" (Some intent))
    as [storage1 updated1] eqn:H1.
  cbn [fst] in *. rewrite Hupd. reflexivity.
Qed.

(** ** Users and experiences *)

Section FindFacts.
Context {A : Type}.

Lemma find_app_first (f : A -> bool) (l1 l2 : list A) :
  find f (l1 ++ l2)
  = match find f l1 with
    | Some x => Some x
    | None => find f l2
    end.
Proof.
  induction l1 as [| y l1 IH]; cbn [app find]; [reflexivity |].
  destruct (f y); [reflexivity | exact IH].
Qed.

End FindFacts.

Lemma mapValues_mapSet_absent {V : Type} (m : list (string * V)) (k : string) (v : V) :
  Js.mapGet m k = None -> Js.mapValues (Js.mapSet m k v) = (Js.mapValues m ++ [v])%list.
Proof.
  intros Hnone. rewrite (mapSet_absent m k v Hnone). unfold Js.mapValues.
  rewrite map_app. reflexivity.
Qed.

(** X15.  [createUser] stores the user it returns under the identifier
    drawn, with the name and password given; [getUser] then finds it, finds
    every other identifier as before, and experiences and bookings are
    untouched. *)
Theorem createUser_then_getUser
  (this : MemStorage.t) (insertUser : InsertUser.t) (env : Env.t) :
  let result := MemStorage.createUser this insertUser env in
  snd result
  = User.mk (Env.randomUUID env) (InsertUser.username insertUser)
      (InsertUser.password insertUser)
  /\ MemStorage.getUser (fst result) (Env.randomUUID env) = Some (snd result)
  /\ (forall id : string,
        id <> Env.randomUUID env ->
        MemStorage.getUser (fst result) id = MemStorage.getUser this id)
  /\ MemStorage.experiences (fst result) = MemStorage.experiences this
  /\ MemStorage.bookings (fst result) = MemStorage.bookings this.
Proof.
  cbv zeta. split; [reflexivity |].
  split; [apply mapGet_mapSet_eq |].
  split; [| split; reflexivity].
  intros id Hne. apply mapGet_mapSet_ne, Hne.
Qed.

Lemma createUser_then_getUser_witness :
  MemStorage.getUser storeWithUser "6f1c2a9e-0001"
  = Some (User.mk "6f1c2a9e-0001" "tashi" "secret")
  /\ MemStorage.getUser storeWithUser "6f1c2a9e-0002"
     = MemStorage.getUser MemStorage.new "6f1c2a9e-0002".
Proof.
  destruct (createUser_then_getUser
              MemStorage.new (InsertUser.mk "tashi" "secret") Sample.env1)
    as (_ & Hget & Hother & _).
  split; [exact Hget |]. apply Hother. discriminate.
Defined.

(** X16.  After [createUser] under an unused identifier,
    [getUserByUsername] answers for every name as before when it found a
    user before, and finds the new user when it found none and the name is
    exactly the new user's.  So a name already in use keeps pointing to the
    earlier user: nothing makes user names unique. *)
Theorem getUserByUsername_after_createUser
  (this : MemStorage.t) (insertUser : InsertUser.t) (env : Env.t) (username : string) :
  MemStorage.getUser this (Env.randomUUID env) = None ->
  let result := MemStorage.createUser this insertUser env in
  MemStorage.getUserByUsername (fst result) username
  = match MemStorage.getUserByUsername this username with
    | Some user => Some user
    | None =>
        if String.eqb (InsertUser.username insertUser) username
        then Some (snd result)
        else None
    end.
Proof.
  intros Hfresh. cbv zeta. unfold MemStorage.getUserByUsername.
  cbn [MemStorage.createUser fst snd MemStorage.users].
  rewrite mapValues_mapSet_absent by exact Hfresh.
  rewrite find_app_first.
  destruct (find _ (Js.mapValues (MemStorage.users this))); [reflexivity |].
  cbn [find User.username].
  destruct (String.eqb (InsertUser.username insertUser) username); reflexivity.
Qed.

Lemma getUserByUsername_after_createUser_witness :
  MemStorage.getUserByUsername
    (fst (MemStorage.createUser storeWithUser (InsertUser.mk "tashi" "other") Sample.env2))
    "tashi"
  = Some (User.mk "6f1c2a9e-0001" "tashi" "secret").
Proof.
  rewrite (getUserByUsername_after_createUser
             storeWithUser (InsertUser.mk "tashi" "other") Sample.env2 "tashi").
  - reflexivity.
  - reflexivity.
Defined.

(** X17.  [createExperience] under an unused identifier adds the experience
    it returns at the end of the list [getAllExperiences] gives, after the
    ones that were there, in their order; [getExperience] then finds it,
    and finds every other identifier as before. *)
Theorem createExperience_appends
  (this : MemStorage.t) (insertExperience : InsertExperience.t) (env : Env.t) :
  MemStorage.getExperience this (Env.randomUUID env) = None ->
  let result := MemStorage.createExperience this insertExperience env in
  MemStorage.getAllExperiences (fst result)
  = (MemStorage.getAllExperiences this ++ [snd result])%list
  /\ Experience.id (snd result) = Env.randomUUID env
  /\ MemStorage.getExperience (fst result) (Env.randomUUID env) = Some (snd result)
  /\ (forall id : string,
        id <> Env.randomUUID env ->
        MemStorage.getExperience (fst result) id = MemStorage.getExperience this id).
Proof.
  intros Hfresh. cbv zeta.
  split; [apply mapValues_mapSet_absent, Hfresh |].
  split; [reflexivity |].
  split; [apply mapGet_mapSet_eq |].
  intros id Hne. apply mapGet_mapSet_ne, Hne.
Qed.

Lemma createExperience_appends_witness :
  length (MemStorage.getAllExperiences
            (fst (MemStorage.createExperience MemStorage.new insertExperience Sample.env1)))
  = 5%nat.
Proof.
  destruct (createExperience_appends MemStorage.new insertExperience Sample.env1)
    as [Hall _].
  - reflexivity.
  - rewrite Hall, length_app. reflexivity.
Defined.

(** ** Reference numbers and payment-intent ids *)

Section IdFacts.

(** The fields of a reference number read back as the year and the draw. *)
Lemma reference_fields (fullYear : Z) (random : Double.t) :
  Double.wellFormed random -> (Double.toQ random < 1)%Q -> 1000 <= fullYear <= 9999 ->
  Reference.year (MemStorage.makeReferenceNumber fullYear random) = fullYear
  /\ Reference.serial (MemStorage.makeReferenceNumber fullYear random)
     = MemStorage.randomComponent random.
Proof.
  intros Hlo Hhi Hyear.
  pose proof (randomComponent_draw _ Hlo Hhi) as [Hrange _].
  set (n := MemStorage.randomComponent random) in *.
  assert (Hshape := reference_shape
                      (Js.numberToString fullYear)
                      (Js.padStart (Js.numberToString n) 6 "0")).
  cbv zeta in Hshape.
  destruct Hshape as (_ & Hy & Hd).
  - apply numberToString_year, Hyear.
  - apply numberToString_allDigits. lia.
  - apply padStart_zero_length, (numberToString_length_le 6 n); [lia |].
    change (10 ^ Z.of_nat 6) with 1000000. lia.
  - apply padStart_zero_allDigits, numberToString_allDigits. lia.
  - unfold MemStorage.makeReferenceNumber. fold n. split.
    + rewrite Hy. apply parseDigits_numberToString. lia.
    + rewrite Hd, padStart_zero_parse. apply parseDigits_numberToString. lia.
Qed.

Lemma numberToString_inj (a b : Z) :
  0 <= a -> 0 <= b -> Js.numberToString a = Js.numberToString b -> a = b.
Proof.
  intros Ha Hb Heq.
  rewrite <- (parseDigits_numberToString a Ha), <- (parseDigits_numberToString b Hb), Heq.
  reflexivity.
Qed.

Lemma append_cancel_l (s x y : string) : (s ++ x)%string = (s ++ y)%string -> x = y.
Proof.
  induction s as [| c s IH]; [intros H; exact H |].
  rewrite !append_cons. intros [= H]. apply IH, H.
Qed.

Lemma append_cancel_r (t x y : string) : (x ++ t)%string = (y ++ t)%string -> x = y.
Proof.
  revert y. induction x as [| c x IH]; intros [| d y] Heq.
  - reflexivity.
  - apply (f_equal String.length) in Heq.
    rewrite append_nil, append_cons in Heq. cbn [String.length] in Heq.
    rewrite length_append in Heq. lia.
  - apply (f_equal String.length) in Heq.
    rewrite append_nil, append_cons in Heq. cbn [String.length] in Heq.
    rewrite length_append in Heq. lia.
  - rewrite !append_cons in Heq. injection Heq as -> Heq.
    rewrite (IH y Heq). reflexivity.
Qed.

End IdFacts.

(** X18.  For two creations in four-digit years with [Math.random()] a
    double in [[0, 1)], the reference numbers are equal exactly when the
    years are equal and the draws [Math.floor(Math.random() * 999999)], the
    product rounded as a double, are equal. *)
Theorem references_collide_exactly_on_year_and_draw
  (this1 this2 : MemStorage.t) (p1 p2 : InsertBooking.t) (e1 e2 : Env.t) :
  Double.wellFormed (Env.mathRandom e1) -> (Double.toQ (Env.mathRandom e1) < 1)%Q ->
  Double.wellFormed (Env.mathRandom e2) -> (Double.toQ (Env.mathRandom e2) < 1)%Q ->
  1000 <= Env.getFullYear e1 <= 9999 -> 1000 <= Env.getFullYear e2 <= 9999 ->
  Booking.referenceNumber (snd (MemStorage.createBooking this1 p1 e1))
  = Booking.referenceNumber (snd (MemStorage.createBooking this2 p2 e2))
  <-> Env.getFullYear e1 = Env.getFullYear e2
      /\ MemStorage.randomComponent (Env.mathRandom e1)
         = MemStorage.randomComponent (Env.mathRandom e2).
Proof.
  intros Hlo1 Hhi1 Hlo2 Hhi2 Hy1 Hy2.
  rewrite !referenceNumber_createBooking.
  destruct (reference_fields _ _ Hlo1 Hhi1 Hy1) as [Hyear1 Hserial1].
  destruct (reference_fields _ _ Hlo2 Hhi2 Hy2) as [Hyear2 Hserial2].
  split.
  - intros Heq. rewrite Heq in Hyear1, Hserial1. split; congruence.
  - intros [Hyear Hdraw]. unfold MemStorage.makeReferenceNumber.
    rewrite Hyear, Hdraw. reflexivity.
Qed.

Lemma references_collide_exactly_on_year_and_draw_witness :
  Booking.referenceNumber
    (snd (MemStorage.createBooking MemStorage.new Sample.insertBooking envA))
  = Booking.referenceNumber
      (snd (MemStorage.createBooking Sample.store1 Sample.insertBooking envB)).
Proof.
  apply (references_collide_exactly_on_year_and_draw
           MemStorage.new Sample.store1 Sample.insertBooking Sample.insertBooking
           envA envB).
  - vm_compute. repeat split; discriminate.
  - vm_compute. reflexivity.
  - vm_compute. repeat split; discriminate.
  - vm_compute. reflexivity.
  - vm_compute. split; discriminate.
  - vm_compute. split; discriminate.
  - split; vm_compute; reflexivity.
Defined.

Example references_of_two_different_randoms :
  Env.mathRandom envA <> Env.mathRandom envB
  /\ Booking.referenceNumber
       (snd (MemStorage.createBooking MemStorage.new Sample.insertBooking envA))
     = "SM-2025-684940"
  /\ Booking.referenceNumber
       (snd (MemStorage.createBooking Sample.store1 Sample.insertBooking envB))
     = "SM-2025-684940".
Proof. split; [discriminate | split; vm_compute; reflexivity]. Qed.

(** X19.  For valid amounts and clock readings that are not negative, the
    payment-intent ids of two [POST /api/create-payment-intent] answers are
    equal exactly when the two requests read the same millisecond; and the
    client secret of an answer is its payment-intent id followed by
    [_secret_mock] exactly when the two clock readings of that request are
    the same. *)
Theorem payment_intent_ids_follow_the_clock
  (storage1 storage2 : MemStorage.t) (env1 env2 : Env.t) (q1 q2 : Q)
  (bookingId1 bookingId2 : option string) :
  (0 < q1)%Q -> (0 < q2)%Q ->
  0 <= Env.dateNow1 env1 -> 0 <= Env.dateNow2 env1 -> 0 <= Env.dateNow1 env2 ->
  exists secret1 intent1 secret2 intent2 : string,
    snd (Routes.postCreatePaymentIntent storage1 env1 (Some q1) bookingId1)
    = Routes.mkResponse 200 (Routes.PaymentIntent secret1 intent1)
    /\ snd (Routes.postCreatePaymentIntent storage2 env2 (Some q2) bookingId2)
       = Routes.mkResponse 200 (Routes.PaymentIntent secret2 intent2)
    /\ (intent1 = intent2 <-> Env.dateNow1 env1 = Env.dateNow1 env2)
    /\ (secret1 = (intent1 ++ "_secret_mock")%string
        <-> Env.dateNow2 env1 = Env.dateNow1 env1).
Proof.
  intros Hq1 Hq2 Ha1 Ha2 Hb1.
  assert (Hguard : forall q, (0 < q)%Q ->
             negb (Js.truthyNumber (Some q)) || Js.leNumber (Some q) 0 = false).
  { intros q Hq.
    destruct (negb (Js.truthyNumber (Some q)) || Js.leNumber (Some q) 0) eqn:Hg;
      [| reflexivity].
    apply amount_guard in Hg. destruct Hg as [[=] | (q' & [= <-] & Hle)].
    exfalso. exact (Qlt_not_le _ _ Hq Hle). }
  unfold Routes.postCreatePaymentIntent. rewrite (Hguard q1 Hq1), (Hguard q2 Hq2).
  cbn [snd Routes.ok].
  do 4 eexists. split; [reflexivity |]. split; [reflexivity |]. split.
  - split.
    + intros Heq. apply append_cancel_l in Heq.
      apply numberToString_inj; assumption.
    + intros ->. reflexivity.
  - split.
    + intros Heq. rewrite <- append_assoc in Heq.
      apply append_cancel_r, append_cancel_l in Heq.
      apply numberToString_inj; assumption.
    + intros ->. rewrite append_assoc. reflexivity.
Qed.

Lemma payment_intent_ids_follow_the_clock_witness :
  exists secret1 intent1 secret2 intent2 : string,
    snd (Routes.postCreatePaymentIntent Sample.store1 Sample.env1 (Some 240%Q) None)
    = Routes.mkResponse 200 (Routes.PaymentIntent secret1 intent1)
    /\ snd (Routes.postCreatePaymentIntent Sample.store1 Sample.env2 (Some 240%Q) None)
       = Routes.mkResponse 200 (Routes.PaymentIntent secret2 intent2)
    /\ (intent1 = intent2 <-> Env.dateNow1 Sample.env1 = Env.dateNow1 Sample.env2)
    /\ (secret1 = (intent1 ++ "_secret_mock")%string
        <-> Env.dateNow2 Sample.env1 = Env.dateNow1 Sample.env1).
Proof.
  apply (payment_intent_ids_follow_the_clock
           Sample.store1 Sample.store1 Sample.env1 Sample.env2 240%Q 240%Q None None).
  - reflexivity.
  - reflexivity.
  - vm_compute. discriminate.
  - vm_compute. discriminate.
  - vm_compute. discriminate.
Defined.

(** ** The booking wizard *)

Section WizardFacts.

Import BookingForm.

Lemma run_step_invariant (P : State -> Prop) :
  (forall st ev, P st -> P (step st ev)) ->
  forall (events : list Event) (st : State), P st -> P (run st events).
Proof.
  intros Hstep. unfold run.
  induction events as [| ev events IH]; intros st Hst; cbn [fold_left];
    [exact Hst | apply IH, Hstep, Hst].
Qed.

Lemma advance_step (st : State) :
  currentStep (advance st)
  = (if currentStep st <? totalSteps then currentStep st + 1 else currentStep st)
  /\ selectedExperience (advance st) = selectedExperience st
  /\ clientSecret (advance st) = clientSecret st
  /\ bookingId (advance st) = bookingId st
  /\ experienceId (advance st) = experienceId st.
Proof.
  unfold advance. destruct (currentStep st <? totalSteps); repeat split.
Qed.

(** What [nextStep] does to the step, the selection and the form value. *)
Lemma nextStep_step (st : State) (submission : Submission) :
  let st' := fst (nextStep st submission) in
  (currentStep st' = currentStep st
   \/ currentStep st < totalSteps /\ currentStep st' = currentStep st + 1)
  /\ selectedExperience st' = selectedExperience st
  /\ experienceId st' = experienceId st.
Proof.
  cbv zeta. unfold nextStep.
  destruct ((currentStep st =? 1)
            && match selectedExperience st with None => true | Some _ => false end);
    [cbn [fst]; tauto |].
  assert (Hadv : forall s : State,
             (currentStep (advance s) = currentStep s
              \/ currentStep s < totalSteps
                 /\ currentStep (advance s) = currentStep s + 1)).
  { intros s. unfold advance.
    destruct (Z.ltb_spec (currentStep s) totalSteps); [right | left]; cbn; tauto. }
  destruct (currentStep st =? 2).
  - destruct submission; cbn [fst]; try tauto.
    destruct (advance_step
                (mkState (currentStep st) (selectedExperience st) secret
                   (Booking.id booking) (experienceId st)))
      as (_ & Hsel & _ & _ & Hexp).
    split; [apply (Hadv (mkState _ _ _ _ _)) |]. split; assumption.
  - cbn [fst]. destruct (advance_step st) as (_ & Hsel & _ & _ & Hexp).
    split; [apply Hadv |]. split; assumption.
Qed.

End WizardFacts.

(** X20.  Whatever the handlers of the wizard are called with, and in
    whatever order, the step stays between 1 and 4, and the form's
    [experienceId] is the id of the selected experience (empty while none
    is selected). *)
Theorem wizard_step_stays_in_range (events : list BookingForm.Event) :
  let st := BookingForm.run BookingForm.initial events in
  1 <= BookingForm.currentStep st <= BookingForm.totalSteps
  /\ BookingForm.experienceId st
     = match BookingForm.selectedExperience st with
       | Some experience => Experience.id experience
       | None => ""
       end.
Proof.
  cbv zeta.
  apply (run_step_invariant
           (fun st =>
              1 <= BookingForm.currentStep st <= BookingForm.totalSteps
              /\ BookingForm.experienceId st
                 = match BookingForm.selectedExperience st with
                   | Some experience => Experience.id experience
                   | None => ""
                   end)).
  - intros st ev [Hrange Hid]. unfold BookingForm.totalSteps in *.
    destruct ev as [experience | submission | |]; cbn [BookingForm.step].
    + split; [exact Hrange | reflexivity].
    + destruct (nextStep_step st submission) as (Hstep & Hsel & Hexp).
      unfold BookingForm.totalSteps in Hstep. rewrite Hsel, Hexp.
      split; [lia | exact Hid].
    + unfold BookingForm.previousStep.
      destruct (Z.gtb_spec (BookingForm.currentStep st) 1);
        cbn [BookingForm.setCurrentStep BookingForm.currentStep
               BookingForm.experienceId BookingForm.selectedExperience];
        split; try lia; exact Hid.
    + cbn [BookingForm.handlePaymentSuccess BookingForm.setCurrentStep
             BookingForm.currentStep BookingForm.experienceId
             BookingForm.selectedExperience].
      split; [lia | exact Hid].
  - split; [unfold BookingForm.totalSteps; cbn; lia | reflexivity].
Qed.

Section WizardGuards.

Import BookingForm.

(** A selection before step 2 and a booking before step 3. *)
Let guarded (st : State) : Prop :=
  1 <= currentStep st <= 4
  /\ (2 <= currentStep st -> selectedExperience st <> None)
  /\ (3 <= currentStep st -> bookingId st <> "").

Lemma guarded_step (st : State) (ev : Event) :
  guarded st -> rendered st ev -> identified ev -> guarded (step st ev).
Proof.
  unfold guarded. intros (Hrange & Hsel & Hid) Hrendered Hident.
  destruct ev as [experience | submission | |]; cbn [step rendered identified] in *.
  - cbn [handleExperienceSelect currentStep selectedExperience bookingId].
    split; [exact Hrange |]. split; [discriminate | exact Hid].
  - unfold nextStep.
    destruct (Z.eqb_spec (currentStep st) 1) as [H1 | H1].
    + destruct (selectedExperience st) as [e |] eqn:He; cbn [andb fst].
      * destruct (Z.eqb_spec (currentStep st) 2); [lia |]. cbn [fst].
        unfold advance, totalSteps. rewrite H1. cbn.
        rewrite He. split; [lia |]. split; [discriminate | intros; lia].
      * split; [exact Hrange |]. split; [intros; lia | exact Hid].
    + cbn [andb]. destruct (Z.eqb_spec (currentStep st) 2) as [H2 | H2].
      * destruct submission as [| | booking | booking secret]; cbn [fst].
        -- split; [exact Hrange |]. split; assumption.
        -- split; [exact Hrange |]. split; assumption.
        -- cbn [currentStep selectedExperience bookingId].
           split; [exact Hrange |]. split; [exact Hsel | intros _; exact Hident].
        -- unfold advance, totalSteps. cbn [currentStep]. rewrite H2. cbn.
           split; [lia |]. split; [intros ?; apply Hsel; lia | intros _; exact Hident].
      * cbn [fst]. unfold advance, totalSteps.
        destruct (Z.ltb_spec (currentStep st) 4); [| lia].
        cbn [setCurrentStep currentStep selectedExperience bookingId].
        split; [lia |]. split; [intros ?; apply Hsel; lia | intros ?; apply Hid; lia].
  - unfold previousStep.
    destruct (Z.gtb_spec (currentStep st) 1); [| lia].
    cbn [setCurrentStep currentStep selectedExperience bookingId].
    split; [lia |]. split; [intros ?; apply Hsel; lia | intros ?; apply Hid; lia].
  - cbn [handlePaymentSuccess setCurrentStep currentStep selectedExperience bookingId].
    split; [lia |]. split; [intros ?; apply Hsel; lia | intros ?; apply Hid; lia].
Qed.

Lemma guarded_run (events : list Event) (st : State) :
  guarded st -> allRendered st events -> Forall identified events ->
  guarded (run st events).
Proof.
  unfold run. revert st.
  induction events as [| ev events IH]; intros st Hst Hrendered Hident;
    cbn [fold_left]; [exact Hst |].
  destruct Hrendered as [Hev Hrest]. inversion Hident as [| ? ? Hhead Htail]; subst.
  apply IH; [apply guarded_step; assumption | exact Hrest | exact Htail].
Qed.

Lemma guarded_initial : guarded initial.
Proof. unfold guarded, initial. cbn. repeat split; try lia. Qed.

End WizardGuards.

(** X21.  Driven through what it renders (the cards at step 1, the two
    buttons below step 4, the payment form at step 3), with every booking
    the server returns carrying an identifier, the wizard is beyond step 1
    only with an experience selected, and at the payment step or beyond
    only with the identifier of a created booking: the payment form is
    never given an empty [bookingId]. *)
Theorem wizard_reaches_payment_only_with_a_booking (events : list BookingForm.Event) :
  BookingForm.allRendered BookingForm.initial events ->
  Forall BookingForm.identified events ->
  let st := BookingForm.run BookingForm.initial events in
  (2 <= BookingForm.currentStep st -> BookingForm.selectedExperience st <> None)
  /\ (3 <= BookingForm.currentStep st -> BookingForm.bookingId st <> "").
Proof.
  intros Hrendered Hident. cbv zeta.
  destruct (guarded_run events BookingForm.initial guarded_initial Hrendered Hident)
    as (_ & Hsel & Hid).
  split; assumption.
Qed.

Lemma wizard_reaches_payment_only_with_a_booking_witness :
  BookingForm.currentStep (BookingForm.run BookingForm.initial WizardSample.events) = 2
  /\ BookingForm.selectedExperience
       (BookingForm.run BookingForm.initial WizardSample.events) <> None.
Proof.
  split; [reflexivity |].
  apply (wizard_reaches_payment_only_with_a_booking WizardSample.events).
  - vm_compute. intuition discriminate.
  - repeat constructor; cbn; discriminate.
  - vm_compute. discriminate.
Defined.

(** ** The total shown by the wizard *)

Lemma ceilDiv_spec (a b d : Z) :
  0 < b -> (d - 1) * b < a <= d * b -> BookingForm.ceilDiv a b = d.
Proof.
  intros Hb Ha. unfold BookingForm.ceilDiv.
  assert (Hq : - a / b = - d); [| lia].
  symmetry. apply (Z.div_unique_pos (- a) b (- d) (d * b - a)); lia.
Qed.

(** X22.  With an experience selected, a price that parses and two dates
    that parse, [calculateTotal] charges price times participants for each
    started day between check-in and check-out, and for one day when the
    check-out is not after the check-in; a missing or zero number of
    participants counts as one.  Without dates it charges price times
    participants, and without an experience it is 0. *)
Theorem calculateTotal_charges_each_started_day
  (parseFloat : string -> option Q) (getTime : string -> option Z)
  (experience : Experience.t) (participants : option Q) (checkin checkout : string)
  (price : Q) (t1 t2 d : Z) :
  parseFloat (Experience.price experience) = Some price ->
  checkin <> "" -> checkout <> "" ->
  getTime checkin = Some t1 -> getTime checkout = Some t2 ->
  (d - 1) * 86400000 < t2 - t1 <= d * 86400000 ->
  BookingForm.calculateTotal parseFloat getTime (Some experience) participants
    checkin checkout
  = Some (price * BookingForm.participantsOrOne participants
          * inject_Z (Z.max 1 d))%Q
  /\ BookingForm.calculateTotal parseFloat getTime (Some experience) participants "" ""
     = Some (price * BookingForm.participantsOrOne participants)%Q
  /\ BookingForm.calculateTotal parseFloat getTime None participants checkin checkout
     = Some 0%Q
  /\ BookingForm.participantsOrOne None = 1%Q
  /\ BookingForm.participantsOrOne (Some 0%Q) = 1%Q.
Proof.
  intros Hprice Hin Hout Ht1 Ht2 Hd.
  unfold BookingForm.calculateTotal.
  rewrite (truthyString_true _ Hin), (truthyString_true _ Hout), Ht1, Ht2, Hprice.
  cbn [andb Js.truthyString String.eqb negb].
  change (1000 * 3600 * 24) with 86400000.
  rewrite (ceilDiv_spec (t2 - t1) 86400000 d) by (try lia; exact Hd).
  repeat split.
Qed.

Lemma calculateTotal_charges_each_started_day_witness :
  BookingForm.calculateTotal WizardSample.parseFloat WizardSample.getTime
    (Some WizardSample.experience) (Some 2%Q) "2025-01-01" "2025-01-03"
  = Some (120 * 2 * inject_Z 2)%Q.
Proof.
  apply (calculateTotal_charges_each_started_day
           WizardSample.parseFloat WizardSample.getTime WizardSample.experience
           (Some 2%Q) "2025-01-01" "2025-01-03" 120%Q 1735689600000 1735862400000 2).
  - reflexivity.
  - discriminate.
  - discriminate.
  - reflexivity.
  - reflexivity.
  - lia.
Defined.
